(** * Food calorie tracker: the meal log of [food_detector_app2.py]

    A shallow embedding of the Streamlit script: the static [NUTRITION]
    table, the detection loop that turns detector boxes into editable
    [(name, count)] items, the "Add to Meal Log" button handler and the
    "Meal Tracker" tab that reads the log back.

    Python dictionaries that are only looked up and updated by key
    ([meal_log.json] and each day's entry) are finite maps; [NUTRITION],
    whose key order feeds the selection widget, is an association list.
    Python integers are unbounded, hence [Z].  The script's only persistent
    state is the file [meal_log.json]; every operation is a function of the
    file's content that returns the new content together with either a
    value or the Python exception that ended it. *)

From stdpp Require Import gmap strings list fin_maps pretty.

Local Open Scope Z_scope.

(** ** Exceptions and the two monads *)

Inductive PyError :=
  | KeyError (key : string)
  | ValueError (what : string)
  | FileNotFoundError (path : string).

Definition result (A : Type) : Type := PyError + A.

Definition raise {A} (e : PyError) : result A := inl e.

#[export] Instance result_ret : MRet result := λ A x, inr x.
#[export] Instance result_bind : MBind result := λ A B f r,
  match r with
  | inl e => inl e
  | inr x => f x
  end.
#[export] Instance result_fmap : FMap result := λ A B f r,
  match r with
  | inl e => inl e
  | inr x => inr (f x)
  end.

(** A day's entry and the whole log, as [json.load] returns them. *)
Abbreviation DaySlots := (gmap string Z).
Abbreviation MealLog := (gmap string (gmap string Z)).

(** Content of [LOG_FILE], as the dictionary [json.load] returns it, two
    contents being equal when they have the same keys with the same values
    (Python's equality of dictionaries; the order of the keys in the
    document is not part of it). [None] while the file does not exist. *)
Abbreviation Disk := (option (gmap string (gmap string Z))).

(** A computation reads and writes the file and ends in a value or an
    exception; what was written before an exception stays written. *)
Definition M (A : Type) : Type := Disk → Disk * result A.

#[export] Instance M_ret : MRet M := λ A x disk, (disk, inr x).
#[export] Instance M_bind : MBind M := λ A B f m disk,
  match m disk with
  | (disk', inl e) => (disk', inl e)
  | (disk', inr x) => f x disk'
  end.

Definition lift {A} (r : result A) : M A := λ disk, (disk, r).

(** [d[k]] on a dictionary. *)
Definition getitem {V} (k : string) (d : gmap string V) : result V :=
  match d !! k with
  | Some v => inr v
  | None => raise (KeyError k)
  end.

(** ** Nutrition database *)

Record FoodItem := { calories : Z }.

Definition NUTRITION : list (string * FoodItem) :=
  [ ("banana", {| calories := 105 |});
    ("apple", {| calories := 95 |});
    ("orange", {| calories := 62 |});
    ("lemon", {| calories := 17 |});
    ("lime", {| calories := 20 |});
    ("pineapple", {| calories := 50 |});
    ("mango", {| calories := 99 |});
    ("papaya", {| calories := 55 |});
    ("grapes", {| calories := 62 |});
    ("egg", {| calories := 78 |});
    ("bread", {| calories := 66 |});
    ("idli", {| calories := 39 |});
    ("dosa", {| calories := 133 |});
    ("biryani", {| calories := 290 |});
    ("veg_biryani", {| calories := 240 |});
    ("chicken_biryani", {| calories := 300 |});
    ("dal", {| calories := 120 |});
    ("sambar", {| calories := 100 |});
    ("chapati", {| calories := 120 |});
    ("rice", {| calories := 136 |});
    ("curd", {| calories := 98 |});
    ("pongal", {| calories := 210 |});
    ("poha", {| calories := 180 |});
    ("upma", {| calories := 220 |});
    ("vada", {| calories := 97 |});
    ("samosa", {| calories := 262 |});
    ("mysore_pak", {| calories := 390 |});
    ("gulab_jamun", {| calories := 150 |});
    ("laddu", {| calories := 186 |});
    ("paneer", {| calories := 265 |});
    ("chole", {| calories := 210 |});
    ("rajma", {| calories := 230 |}) ].

(** [list(NUTRITION.keys())] *)
Definition NUTRITION_keys : list string := NUTRITION.*1.

(** [name in NUTRITION] *)
Definition in_NUTRITION (name : string) : bool :=
  bool_decide (name ∈ NUTRITION_keys).

(** [NUTRITION[name]] *)
Fixpoint assoc_getitem {V} (k : string) (d : list (string * V)) : option V :=
  match d with
  | [] => None
  | (k', v) :: d' => if decide (k = k') then Some v else assoc_getitem k d'
  end.

Definition NUTRITION_getitem (name : string) : result FoodItem :=
  match assoc_getitem name NUTRITION with
  | Some item => inr item
  | None => raise (KeyError name)
  end.

(** [l.index(x)]: position of the first occurrence, [ValueError] if none. *)
Fixpoint list_index (x : string) (l : list string) : result nat :=
  match l with
  | [] => raise (ValueError x)
  | y :: l' => if decide (x = y) then inr 0%nat else S <$> list_index x l'
  end.

Definition MEAL_TYPES : list string := ["Breakfast"; "Lunch"; "Dinner"; "Snacks"].

(** ** Load or create the meal log *)

Definition LOG_FILE : string := "meal_log.json".

(** Module-level code run at every start of the script:
    [if not os.path.exists(LOG_FILE): json.dump({}, f)]. *)
Definition startup (disk : Disk) : Disk :=
  match disk with
  | None => Some ∅
  | Some _ => disk
  end.

Definition load_log : M MealLog := λ disk,
  match disk with
  | Some log => (disk, inr log)
  | None => (disk, raise (FileNotFoundError LOG_FILE))
  end.

Definition save_log (data : MealLog) : M () := λ _, (Some data, inr ()).

(** ** Detection tab: the button handler *)

(** [{m: 0 for m in MEAL_TYPES}] *)
Definition zero_day : DaySlots :=
  foldl (λ d m, <[m := 0]> d) ∅ MEAL_TYPES.

(** [if today not in log: log[today] = {m: 0 for m in MEAL_TYPES}] *)
Definition init_day (today : string) (log : MealLog) : MealLog :=
  match log !! today with
  | None => <[today := zero_day]> log
  | Some _ => log
  end.

(** [sum(NUTRITION[name]["calories"] * count for name, count in final_items)]:
    the generator is consumed left to right into an accumulator that
    starts at 0; the first unknown name ends it with [KeyError]. *)
Fixpoint plate_sum (acc : Z) (final_items : list (string * Z)) : result Z :=
  match final_items with
  | [] => inr acc
  | (name, count) :: rest =>
      item ← NUTRITION_getitem name;
      plate_sum (acc + calories item * count) rest
  end.

Definition total_plate (final_items : list (string * Z)) : result Z :=
  plate_sum 0 final_items.

(** [log[today][meal_choice] += total_plate] *)
Definition add_to_slot (today meal_choice : string) (total_plate : Z)
    (log : MealLog) : result MealLog :=
  meals ← getitem today log;
  old ← getitem meal_choice meals;
  inr (<[today := <[meal_choice := old + total_plate]> meals]> log).

(** Body of [if st.button("Add to Meal Log")], in source order, with the
    expression on the right of [total_plate =] left open: it is evaluated
    after the day has been initialised in memory and before the slot is
    read. Returns the amount shown in the success message. *)
Definition log_plate (today meal_choice : string) (plate : result Z) : M Z :=
  log ← load_log;
  let log := init_day today log in
  total_plate ← lift plate;
  log ← lift (add_to_slot today meal_choice total_plate log);
  _ ← save_log log;
  mret total_plate.

(** The handler as written: the plate is the list of edited items. *)
Definition add_to_meal_log (today meal_choice : string)
    (final_items : list (string * Z)) : M Z :=
  log_plate today meal_choice (total_plate final_items).

(** The same handler for a plate whose total is [amount]: the store
    operation the specification calls addCalories. *)
Definition addCalories (today slot : string) (amount : Z) : M Z :=
  log_plate today slot (inr amount).

(** ** Meal tracker tab *)

Inductive Advice := UnderTarget | WithinTarget | AboveTarget.

(** What the tab renders: the "no meals" notice, or the four per-meal
    lines, the day's total and, when a target is in the session, the
    comparison with it. *)
Inductive TrackerView :=
  | NoMealsYet
  | MealSummary (by_meal : list (string * Z)) (total_today : Z)
                (advice : option Advice).

(** [sum(meals.values())] *)
Definition sum_values (meals : DaySlots) : Z :=
  map_fold (λ _ v acc, acc + v) 0 meals.

Definition compare_target (total_today target : Z) : Advice :=
  if bool_decide (total_today < target - 150) then UnderTarget
  else if bool_decide (total_today ≤ target + 150) then WithinTarget
  else AboveTarget.

(** [for m in MEAL_TYPES: st.write(f"**{m}:** {meals[m]} kcal")] *)
Definition meal_lines (meals : DaySlots) : result (list (string * Z)) :=
  mapM (M := result) (λ m, v ← getitem m meals; inr (m, v)) MEAL_TYPES.

(** [recommended] is [st.session_state["recommended"]], if set. *)
Definition tab_tracker (today : string) (recommended : option Z)
    : M TrackerView :=
  log ← load_log;
  match log !! today with
  | None => mret NoMealsYet
  | Some meals =>
      let total_today := sum_values meals in
      by_meal ← lift (meal_lines meals);
      mret (MealSummary by_meal total_today
              (compare_target total_today <$> recommended))
  end.

(** ** Detection tab: from detector boxes to the edited items *)

(** What the script reads of the detector's answer: for each box its class
    index [int(box.cls[0])], and the dictionary [results.names] from class
    index to class name. *)
Record Results := { boxes : list Z; names : gmap Z string }.

Section detection_tab.
(** [str.lower] is the interpreter's, and the two widgets are Streamlit's:
    what a widget returns is decided by what the user did in the browser,
    which the session holds. They are taken as given, together with what
    Streamlit documents of them. *)
Context {Session : Type}.
Variable str_lower : string → string.
Variable selectbox :
  string → list string → nat → string → Session → string.
Variable number_input :
  string → Z → Z → Z → string → Session → Z.

(** Lines 176-181: the class name, lower-cased, or ["apple"]. *)
Definition detected_name (results : Results) (cls : Z) : result string :=
  match names results !! cls with
  | None => raise (KeyError (pretty cls))
  | Some class_name =>
      let detected_name := str_lower class_name in
      inr (if in_NUTRITION detected_name then detected_name else "apple")
  end.

(** The loop [for i, box in enumerate(results.boxes)]. *)
Fixpoint detection_loop (results : Results) (σ : Session) (i : nat)
    (todo : list Z) (final_items : list (string * Z))
    : result (list (string * Z)) :=
  match todo with
  | [] => inr final_items
  | cls :: todo' =>
      detected ← detected_name results cls;
      index ← list_index detected NUTRITION_keys;
      let name :=
        selectbox ("Detected item " +:+ pretty (i + 1)%nat)
          NUTRITION_keys index ("label_" +:+ pretty i) σ in
      let count :=
        number_input ("Count for " +:+ name) 1 20 1
          ("count_" +:+ pretty i) σ in
      detection_loop results σ (S i) todo' (final_items ++ [(name, count)])
  end.

Definition detect_items (results : Results) (σ : Session)
    : result (list (string * Z)) :=
  detection_loop results σ 0 (boxes results) [].
End detection_tab.

(** A session as a record of what the user committed, by widget key, with
    widgets that fall back to their initial value: one way the browser can
    behave, used to run the loop on examples. *)
Record Edits := { picked : gmap string nat; typed : gmap string Z }.

Definition no_edits : Edits := {| picked := ∅; typed := ∅ |}.

Definition edits_selectbox (label : string) (options : list string)
    (index : nat) (key : string) (σ : Edits) : string :=
  match picked σ !! key ≫= (options !!.) with
  | Some choice => choice
  | None => default "" (options !! index)
  end.

Definition edits_number_input (label : string) (min_value max_value value : Z)
    (key : string) (σ : Edits) : Z :=
  match typed σ !! key with
  | Some v => if bool_decide (min_value ≤ v ≤ max_value) then v else value
  | None => value
  end.

(** ASCII lower-casing, for examples. *)
Definition ascii_lower_char (c : Ascii.ascii) : Ascii.ascii :=
  let n := Ascii.nat_of_ascii c in
  if bool_decide (65 ≤ n ≤ 90)%nat then Ascii.ascii_of_nat (n + 32) else c.

Fixpoint ascii_lower (s : string) : string :=
  match s with
  | EmptyString => EmptyString
  | String c s' => String (ascii_lower_char c) (ascii_lower s')
  end.

(** ** The log's invariant and the states the script can reach *)

(** A day's entry has exactly the keys of [MEAL_TYPES], each holding a
    non-negative total. *)
Definition wf_day (meals : DaySlots) : Prop :=
  dom meals = list_to_set MEAL_TYPES ∧ map_Forall (λ _ v, 0 ≤ v) meals.

Definition wf_log (log : MealLog) : Prop :=
  map_Forall (λ _ meals, wf_day meals) log.

#[export] Instance wf_day_dec meals : Decision (wf_day meals).
Proof. unfold wf_day. apply _. Defined.

#[export] Instance wf_log_dec log : Decision (wf_log log).
Proof. unfold wf_log. apply _. Defined.

(** An item as the two widgets of the loop can deliver it. *)
Definition ui_item (item : string * Z) : Prop :=
  item.1 ∈ NUTRITION_keys ∧ 1 ≤ item.2 ≤ 20.

(** One interaction with the script, seen from the file: a restart, a
    press of the button with a plate edited in the widgets, a store call
    with any slot name and a non-negative amount, or a rendering of the
    tracker tab. *)
Inductive step : Disk → Disk → Prop :=
  | step_restart disk :
      step disk (startup disk)
  | step_button disk today meal_choice final_items :
      meal_choice ∈ MEAL_TYPES →
      Forall ui_item final_items →
      step disk (add_to_meal_log today meal_choice final_items disk).1
  | step_store disk today slot amount :
      0 ≤ amount →
      step disk (addCalories today slot amount disk).1
  | step_view disk today recommended :
      step disk (tab_tracker today recommended disk).1.

(** Reachable: from the first start, when no log file exists yet. *)
Definition reachable (disk : Disk) : Prop := rtc step (startup None) disk.

(** The total stored for a slot of a day, if the day and the slot exist. *)
Definition stored (log : MealLog) (date slot : string) : option Z :=
  log !! date ≫= (.!! slot).

(** Calories of one reference serving, 0 for a name outside the table. *)
Definition kcal (name : string) : Z :=
  default 0 (calories <$> assoc_getitem name NUTRITION).

(** The sum, over the items, of calorie value times count. *)
Fixpoint calorie_sum (items : list (string * Z)) : Z :=
  match items with
  | [] => 0
  | (name, count) :: rest => kcal name * count + calorie_sum rest
  end.

Definition known_positive (name : string) : bool :=
  match assoc_getitem name NUTRITION with
  | Some item => bool_decide (0 < calories item)
  | None => false
  end.

Definition disk_ok (disk : Disk) : Prop :=
  ∃ log, disk = Some log ∧ wf_log log.

(** The order in which a log can only grow: every date stays, and every
    total of a date stays or increases. *)
Definition day_le (meals meals' : DaySlots) : Prop :=
  ∀ slot v, meals !! slot = Some v → ∃ v', meals' !! slot = Some v' ∧ v ≤ v'.

Definition log_le (log log' : MealLog) : Prop :=
  ∀ date meals, log !! date = Some meals →
    ∃ meals', log' !! date = Some meals' ∧ day_le meals meals'.

(** Where a date stands in the file: no entry, the all-zero entry, or an
    entry with something in it. *)
Inductive DayState := Absent | Initialized | Accumulated.

Definition day_state (log : MealLog) (date : string) : DayState :=
  match log !! date with
  | None => Absent
  | Some meals => if decide (meals = zero_day) then Initialized else Accumulated
  end.

Definition state_rank (st : DayState) : nat :=
  match st with
  | Absent => 0
  | Initialized => 1
  | Accumulated => 2
  end.

(** What a store call that finds its slot writes: today's entry, or the
    all-zero day when there is none, with the slot increased. *)
Definition bump (today slot : string) (amount : Z) (log : MealLog) : MealLog :=
  let meals := default zero_day (log !! today) in
  <[today := <[slot := default 0 (meals !! slot) + amount]> meals]> log.

(** The three messages of the comparison, from fewest calories to most. *)
Definition advice_rank (a : Advice) : nat :=
  match a with
  | UnderTarget => 0
  | WithinTarget => 1
  | AboveTarget => 2
  end.

(** * Properties *)

(** ** Running the handler *)

Lemma log_plate_run today meal_choice plate disk :
  log_plate today meal_choice plate disk =
    match disk with
    | None => (None, inl (FileNotFoundError LOG_FILE))
    | Some log =>
        match plate with
        | inl e => (Some log, inl e)
        | inr t =>
            match add_to_slot today meal_choice t (init_day today log) with
            | inl e => (Some log, inl e)
            | inr log' => (Some log', inr t)
            end
        end
    end.
Proof.
  destruct disk as [log|]; [|done].
  destruct plate as [e|t]; [done|].
  unfold log_plate, mbind, M_bind, lift; simpl.
  by destruct (add_to_slot _ _ _ _).
Qed.

Lemma add_to_slot_Some today meal_choice t (log : MealLog) meals old :
  log !! today = Some meals →
  meals !! meal_choice = Some old →
  add_to_slot today meal_choice t log =
    inr (<[today := <[meal_choice := old + t]> meals]> log).
Proof.
  intros Hday Hslot. unfold add_to_slot, getitem.
  rewrite Hday; simpl. by rewrite Hslot.
Qed.

Lemma add_to_slot_no_slot today meal_choice t (log : MealLog) meals :
  log !! today = Some meals →
  meals !! meal_choice = None →
  add_to_slot today meal_choice t log = inl (KeyError meal_choice).
Proof.
  intros Hday Hslot. unfold add_to_slot, getitem.
  rewrite Hday; simpl. by rewrite Hslot.
Qed.

Lemma add_to_slot_inv today meal_choice t (log log' : MealLog) :
  add_to_slot today meal_choice t log = inr log' →
  ∃ meals old,
    log !! today = Some meals ∧ meals !! meal_choice = Some old ∧
    log' = <[today := <[meal_choice := old + t]> meals]> log.
Proof.
  unfold add_to_slot, getitem. intros H.
  destruct (log !! today) as [meals|] eqn:Hday; [|done]. simpl in H.
  destruct (meals !! meal_choice) as [old|] eqn:Hslot; [|done].
  simpl in H. injection H as <-. eauto.
Qed.

Lemma init_day_lookup today (log : MealLog) :
  init_day today log !! today = Some (default zero_day (log !! today)).
Proof.
  unfold init_day. destruct (log !! today) eqn:Hday; simpl.
  - done.
  - by rewrite lookup_insert_eq.
Qed.

Lemma init_day_lookup_ne today date (log : MealLog) :
  date ≠ today → init_day today log !! date = log !! date.
Proof.
  intros Hne. unfold init_day. destruct (log !! today); [done|].
  by rewrite lookup_insert_ne.
Qed.

Lemma init_day_present today (log : MealLog) :
  is_Some (log !! today) → init_day today log = log.
Proof. intros [meals Hday]. unfold init_day. by rewrite Hday. Qed.

Lemma init_day_idemp today (log : MealLog) :
  init_day today (init_day today log) = init_day today log.
Proof. apply init_day_present. rewrite init_day_lookup. eauto. Qed.

(** ** The four slots *)

Lemma zero_day_eq :
  zero_day =
    <["Breakfast" := 0]> (<["Lunch" := 0]> (<["Dinner" := 0]>
      (<["Snacks" := 0]> ∅))).
Proof. apply (bool_decide_unpack _). vm_compute. exact I. Qed.

Lemma elem_of_MEAL_TYPES s :
  s ∈ MEAL_TYPES ↔
  s = "Breakfast" ∨ s = "Lunch" ∨ s = "Dinner" ∨ s = "Snacks".
Proof. unfold MEAL_TYPES. rewrite !elem_of_cons, elem_of_nil. tauto. Qed.

Lemma zero_day_lookup s :
  zero_day !! s = if decide (s ∈ MEAL_TYPES) then Some 0 else None.
Proof.
  rewrite zero_day_eq. case_decide as Hs.
  - apply elem_of_MEAL_TYPES in Hs as [-> | [-> | [-> | ->]]]; done.
  - rewrite elem_of_MEAL_TYPES in Hs.
    rewrite !lookup_insert_ne, lookup_empty by (intros <-; tauto). done.
Qed.

Lemma wf_day_zero : wf_day zero_day.
Proof. apply (bool_decide_unpack _). vm_compute. exact I. Qed.

Lemma wf_day_lookup meals s :
  wf_day meals → s ∈ MEAL_TYPES → ∃ v, meals !! s = Some v ∧ 0 ≤ v.
Proof.
  intros [Hdom Hpos] Hs.
  assert (is_Some (meals !! s)) as [v Hv].
  { apply elem_of_dom. rewrite Hdom. by apply elem_of_list_to_set. }
  exists v. split; [done|]. by apply (Hpos s).
Qed.

Lemma wf_day_lookup_None meals s :
  wf_day meals → s ∉ MEAL_TYPES → meals !! s = None.
Proof.
  intros [Hdom _] Hs. apply not_elem_of_dom. rewrite Hdom.
  by rewrite elem_of_list_to_set.
Qed.

Lemma wf_day_add meals s old t :
  wf_day meals → meals !! s = Some old → 0 ≤ t →
  wf_day (<[s := old + t]> meals).
Proof.
  intros [Hdom Hpos] Hs Ht. split.
  - rewrite dom_insert_L, Hdom.
    assert (s ∈ dom meals) as Hin by (apply elem_of_dom; eauto).
    rewrite Hdom in Hin.
    apply subseteq_union_1_L. by apply singleton_subseteq_l.
  - apply map_Forall_insert_2; [|done].
    specialize (Hpos s old Hs). simpl in Hpos. lia.
Qed.

(** A well-formed day is determined by its four totals. *)
Lemma wf_day_shape meals :
  wf_day meals →
  ∃ b l d s,
    meals = <["Breakfast" := b]> (<["Lunch" := l]> (<["Dinner" := d]>
              (<["Snacks" := s]> ∅))) ∧
    0 ≤ b ∧ 0 ≤ l ∧ 0 ≤ d ∧ 0 ≤ s.
Proof.
  intros Hwf.
  destruct (wf_day_lookup meals "Breakfast" Hwf) as (b & Hb & ?);
    [by apply elem_of_MEAL_TYPES; tauto|].
  destruct (wf_day_lookup meals "Lunch" Hwf) as (l & Hl & ?);
    [by apply elem_of_MEAL_TYPES; tauto|].
  destruct (wf_day_lookup meals "Dinner" Hwf) as (d & Hd & ?);
    [by apply elem_of_MEAL_TYPES; tauto|].
  destruct (wf_day_lookup meals "Snacks" Hwf) as (s & Hs & ?);
    [by apply elem_of_MEAL_TYPES; tauto|].
  exists b, l, d, s. split; [|done].
  apply map_eq. intros k.
  destruct (decide (k ∈ MEAL_TYPES)) as [Hk|Hk].
  - apply elem_of_MEAL_TYPES in Hk as [-> | [-> | [-> | ->]]]; done.
  - rewrite (wf_day_lookup_None _ _ Hwf Hk).
    rewrite elem_of_MEAL_TYPES in Hk.
    rewrite !lookup_insert_ne, lookup_empty by (intros <-; tauto). done.
Qed.

(** ** The plate *)

Lemma NUTRITION_known_positive :
  Forall (λ name, known_positive name = true) NUTRITION_keys.
Proof. apply (bool_decide_unpack _). vm_compute. exact I. Qed.

Lemma NUTRITION_getitem_key name :
  name ∈ NUTRITION_keys →
  ∃ item, NUTRITION_getitem name = inr item ∧
          calories item = kcal name ∧ 0 < calories item.
Proof.
  intros Hin.
  pose proof (proj1 (Forall_forall _ _) NUTRITION_known_positive name Hin)
    as Hpos.
  unfold known_positive in Hpos. unfold NUTRITION_getitem, kcal.
  destruct (assoc_getitem name NUTRITION) as [item|]; [|done].
  exists item. split; [done|]. split; [done|].
  by apply bool_decide_eq_true in Hpos.
Qed.

Lemma NUTRITION_getitem_not_key name :
  name ∉ NUTRITION_keys → NUTRITION_getitem name = inl (KeyError name).
Proof.
  unfold NUTRITION_getitem, NUTRITION_keys.
  generalize NUTRITION. intros d Hnotin.
  induction d as [|[k v] d IH]; [done|]. simpl in *.
  rewrite not_elem_of_cons in Hnotin. destruct Hnotin as [Hne Hnotin].
  rewrite decide_False by done. by apply IH.
Qed.

Lemma plate_sum_ui acc items :
  Forall ui_item items →
  plate_sum acc items = inr (acc + calorie_sum items) ∧
  0 ≤ calorie_sum items ∧ (items ≠ [] → 0 < calorie_sum items).
Proof.
  intros Hitems. revert acc.
  induction Hitems as [|[name count] rest [Hname Hcount] _ IH]; intros acc.
  - simpl. split; [f_equal; lia|]. split; [lia|done].
  - simpl in Hname, Hcount.
    destruct (NUTRITION_getitem_key name Hname) as (item & Hget & Hk & Hpos).
    destruct (IH (acc + calories item * count)) as (Hsum & Hge & _).
    simpl. rewrite Hget. simpl. rewrite Hsum, Hk.
    split; [f_equal; lia|].
    rewrite <- Hk. split; [nia|intros _; nia].
Qed.

Lemma total_plate_ui items :
  Forall ui_item items →
  total_plate items = inr (calorie_sum items) ∧
  0 ≤ calorie_sum items ∧ (items ≠ [] → 0 < calorie_sum items).
Proof.
  intros Hitems. unfold total_plate.
  destruct (plate_sum_ui 0 items Hitems) as (-> & ? & ?). done.
Qed.

(** ** The invariant along the script's steps *)

Lemma wf_log_init_day today log : wf_log log → wf_log (init_day today log).
Proof.
  intros Hwf. unfold init_day. destruct (log !! today); [done|].
  apply map_Forall_insert_2; [apply wf_day_zero|done].
Qed.

Lemma wf_log_add_to_slot today slot t log log' :
  wf_log log → 0 ≤ t →
  add_to_slot today slot t log = inr log' → wf_log log'.
Proof.
  intros Hwf Ht (meals & old & Hday & Hslot & ->)%add_to_slot_inv.
  apply map_Forall_insert_2; [|done].
  apply wf_day_add; [by apply (Hwf today)|done..].
Qed.

Lemma log_plate_disk_ok today slot t disk :
  disk_ok disk → 0 ≤ t → disk_ok (log_plate today slot (inr t) disk).1.
Proof.
  intros (log & -> & Hwf) Ht. rewrite log_plate_run.
  destruct (add_to_slot _ _ _ _) as [e|log'] eqn:Hadd; simpl.
  - by exists log.
  - exists log'. split; [done|].
    eapply wf_log_add_to_slot; [by apply wf_log_init_day|done..].
Qed.

Lemma log_plate_raise today slot e disk :
  (log_plate today slot (inl e) disk).1 = disk.
Proof. rewrite log_plate_run. by destruct disk. Qed.

Lemma add_to_meal_log_ui today meal_choice items disk :
  Forall ui_item items →
  add_to_meal_log today meal_choice items disk =
    addCalories today meal_choice (calorie_sum items) disk.
Proof.
  intros Hitems. unfold add_to_meal_log, addCalories.
  by destruct (total_plate_ui items Hitems) as (-> & _).
Qed.

Lemma tab_tracker_run today recommended log :
  tab_tracker today recommended (Some log) =
    (Some log,
     match log !! today with
     | None => inr NoMealsYet
     | Some meals =>
         (λ by_meal,
            MealSummary by_meal (sum_values meals)
              (compare_target (sum_values meals) <$> recommended))
           <$> meal_lines meals
     end).
Proof.
  unfold tab_tracker, mbind, M_bind, load_log. lazy beta iota.
  destruct (log !! today) as [meals|]; [|done].
  unfold lift. by destruct (meal_lines meals).
Qed.

Lemma tab_tracker_disk today recommended disk :
  (tab_tracker today recommended disk).1 = disk.
Proof.
  destruct disk as [log|]; [|done]. by rewrite tab_tracker_run.
Qed.

Lemma step_disk_ok disk disk' : disk_ok disk → step disk disk' → disk_ok disk'.
Proof.
  intros Hok Hstep. destruct Hstep as [disk|disk today mc items Hmc Hitems
    |disk today slot amount Hamount|disk today recommended].
  - destruct Hok as (log & -> & Hwf). by exists log.
  - rewrite add_to_meal_log_ui by done.
    apply log_plate_disk_ok; [done|]. by apply total_plate_ui.
  - by apply log_plate_disk_ok.
  - by rewrite tab_tracker_disk.
Qed.

Lemma rtc_step_disk_ok disk disk' :
  disk_ok disk → rtc step disk disk' → disk_ok disk'.
Proof. intros Hok Hsteps. induction Hsteps; eauto using step_disk_ok. Qed.

Lemma startup_disk_ok : disk_ok (startup None).
Proof. exists ∅. split; [done|]. apply map_Forall_empty. Qed.

Lemma reachable_disk_ok disk : reachable disk → disk_ok disk.
Proof. apply rtc_step_disk_ok, startup_disk_ok. Qed.

(** ** A successful store call *)

Lemma addCalories_wf_run log today slot amount :
  wf_log log → slot ∈ MEAL_TYPES →
  ∃ meals pre,
    init_day today log !! today = Some meals ∧
    wf_day meals ∧
    meals !! slot = Some pre ∧ 0 ≤ pre ∧
    (log !! today = None → meals = zero_day ∧ pre = 0) ∧
    addCalories today slot amount (Some log) =
      (Some (<[today := <[slot := pre + amount]> meals]> (init_day today log)),
       inr amount).
Proof.
  intros Hwf Hslot.
  pose proof (init_day_lookup today log) as Hday.
  set (meals := default zero_day (log !! today)) in *.
  assert (wf_day meals) as Hmeals.
  { apply (wf_log_init_day today log Hwf today meals Hday). }
  destruct (wf_day_lookup meals slot Hmeals Hslot) as (pre & Hpre & Hge).
  exists meals, pre. repeat (split; [done|]). split.
  - intros Hnone. subst meals. rewrite Hnone in *. simpl in *.
    split; [done|]. rewrite zero_day_lookup, decide_True in Hpre by done.
    congruence.
  - unfold addCalories. rewrite log_plate_run.
    by rewrite (add_to_slot_Some _ _ _ _ meals pre).
Qed.

Lemma stored_insert (log : MealLog) date slot (meals : DaySlots) v :
  stored (<[date := <[slot := v]> meals]> log) date slot = Some v.
Proof. unfold stored. rewrite lookup_insert_eq. simpl. apply lookup_insert_eq. Qed.

Lemma stored_init_day_absent (log : MealLog) date slot :
  log !! date = None → slot ∈ MEAL_TYPES →
  stored (init_day date log) date slot = Some 0.
Proof.
  intros Hnone Hslot. unfold stored. rewrite init_day_lookup, Hnone. simpl.
  by rewrite zero_day_lookup, decide_True.
Qed.

(** ** The tracker's view of a well-formed day *)

Lemma meal_lines_wf meals :
  wf_day meals →
  ∃ b l d s,
    meals !! "Breakfast" = Some b ∧ meals !! "Lunch" = Some l ∧
    meals !! "Dinner" = Some d ∧ meals !! "Snacks" = Some s ∧
    meal_lines meals =
      inr [("Breakfast", b); ("Lunch", l); ("Dinner", d); ("Snacks", s)] ∧
    sum_values meals = b + l + d + s.
Proof.
  intros (b & l & d & s & -> & _)%wf_day_shape.
  exists b, l, d, s. repeat (split; [done|]).
  unfold sum_values.
  rewrite map_fold_insert_L; [|intros; lia|done].
  rewrite map_fold_insert_L; [|intros; lia|done].
  rewrite map_fold_insert_L; [|intros; lia|done].
  rewrite map_fold_insert_L; [|intros; lia|done].
  rewrite map_fold_empty. lia.
Qed.

(** * The claims *)

(** ** Invariant of the persisted log *)

(** C2. In every reachable state the log file exists and every day entry
    it holds has exactly the keys of [MEAL_TYPES], each with a non-negative
    total. A store call with a non-negative amount keeps this; on the first
    write to an absent date with a recognised slot the persisted entry is
    the all-zero day with the amount added to that slot, so no partial set
    of slots is ever written. *)
Theorem reachable_four_slots_nonneg disk :
  reachable disk →
  ∃ log,
    disk = Some log ∧
    (∀ date meals, log !! date = Some meals →
       dom meals = list_to_set MEAL_TYPES ∧
       (∀ slot, slot ∈ MEAL_TYPES → ∃ v, meals !! slot = Some v ∧ 0 ≤ v) ∧
       (∀ slot, slot ∉ MEAL_TYPES → meals !! slot = None)) ∧
    (∀ date slot amount, 0 ≤ amount →
       ∃ log',
         (addCalories date slot amount disk).1 = Some log' ∧
         wf_log log' ∧
         (log !! date = None → slot ∈ MEAL_TYPES →
            log' !! date = Some (<[slot := 0 + amount]> zero_day))).
Proof.
  intros (log & -> & Hwf)%reachable_disk_ok.
  exists log. split; [done|]. split.
  - intros date meals Hday. pose proof (Hwf date meals Hday) as Hmeals.
    split; [apply Hmeals|]. split.
    + intros slot Hslot. by apply wf_day_lookup.
    + intros slot Hslot. by apply wf_day_lookup_None.
  - intros date slot amount Hamount.
    destruct (log_plate_disk_ok date slot amount (Some log)) as (log' & Hrun & Hwf');
      [by exists log|done|].
    exists log'. split; [done|]. split; [done|].
    intros Hnone Hslot.
    destruct (addCalories_wf_run log date slot amount Hwf Hslot)
      as (meals & pre & _ & _ & _ & _ & Hfresh & Hadd).
    destruct (Hfresh Hnone) as [-> ->].
    unfold addCalories in Hadd. rewrite Hadd in Hrun. simpl in Hrun.
    injection Hrun as <-. by rewrite lookup_insert_eq.
Qed.

Lemma reachable_four_slots_nonneg_witness :
  reachable (add_to_meal_log "2024-01-01" "Breakfast" [("banana", 1)]
               (startup None)).1 ∧
  ∃ log,
    (add_to_meal_log "2024-01-01" "Breakfast" [("banana", 1)]
       (startup None)).1 = Some log ∧
    ∀ date meals, log !! date = Some meals →
      dom meals = list_to_set MEAL_TYPES.
Proof.
  assert (reachable (add_to_meal_log "2024-01-01" "Breakfast" [("banana", 1)]
                       (startup None)).1) as Hreach.
  { apply rtc_once, step_button.
    - apply (bool_decide_unpack _). vm_compute. exact I.
    - apply (bool_decide_unpack _). vm_compute. exact I. }
  split; [exact Hreach|].
  destruct (reachable_four_slots_nonneg _ Hreach) as (log & Hlog & Hinv & _).
  exists log. split; [exact Hlog|].
  intros date meals Hday. exact (proj1 (Hinv date meals Hday)).
Defined.

(** ** Write-through persistence *)

(** C3. On a well-formed log a store call with a recognised slot returns
    normally, and so does a press of the button with a plate from the
    widgets; when it returns, the file holds the whole log: today's entry,
    or the all-zero day if there was none, with the slot increased by the
    amount, and every other date as it was, and that is what the next
    [load_log] reads. Whenever the handler returns normally, what it saved
    is the log it loaded, initialised and updated. At start, a missing
    file is created holding the empty log, so after start-up the file
    exists and loads. *)
Theorem addCalories_writes_whole_log :
  (∀ (log : MealLog) today slot amount,
     wf_log log → slot ∈ MEAL_TYPES →
     ∃ pre log',
       default zero_day (log !! today) !! slot = Some pre ∧
       addCalories today slot amount (Some log) = (Some log', inr amount) ∧
       (∀ items, Forall ui_item items → calorie_sum items = amount →
          add_to_meal_log today slot items (Some log) =
            (Some log', inr amount)) ∧
       log' !! today =
         Some (<[slot := pre + amount]> (default zero_day (log !! today))) ∧
       (∀ date, date ≠ today → log' !! date = log !! date) ∧
       dom log ⊆ dom log' ∧
       load_log (Some log') = (Some log', inr log')) ∧
  (∀ today slot plate disk disk' v,
     log_plate today slot plate disk = (disk', inr v) →
     ∃ log log',
       disk = Some log ∧ plate = inr v ∧
       add_to_slot today slot v (init_day today log) = inr log' ∧
       disk' = Some log' ∧
       dom log ⊆ dom log' ∧
       (∀ date, date ≠ today → log' !! date = log !! date)) ∧
  startup None = Some ∅ ∧
  (∀ disk, ∃ log,
     startup disk = Some log ∧
     load_log (startup disk) = (startup disk, inr log) ∧
     (∀ log0, disk = Some log0 → log = log0)).
Proof.
  assert (∀ (log : MealLog) today slot v meals old,
            init_day today log !! today = Some meals →
            dom log ⊆ dom (<[today := <[slot := old + v]> meals]>
                             (init_day today log)) ∧
            (∀ date, date ≠ today →
               (<[today := <[slot := old + v]> meals]> (init_day today log))
                 !! date = log !! date)) as Hwhole.
  { intros log today slot v meals old Hday. split.
    - intros date [m Hm]%elem_of_dom. apply elem_of_dom.
      destruct (decide (date = today)) as [->|Hne].
      + rewrite lookup_insert_eq. eauto.
      + rewrite lookup_insert_ne, init_day_lookup_ne by done. eauto.
    - intros date Hne. by rewrite lookup_insert_ne, init_day_lookup_ne. }
  split; [|split; [|split; [done|]]].
  - intros log today slot amount Hwf Hslot.
    destruct (addCalories_wf_run log today slot amount Hwf Hslot)
      as (meals & pre & Hday & _ & Hpre & _ & _ & Hrun).
    pose proof Hday as Hmeals. rewrite init_day_lookup in Hmeals.
    injection Hmeals as Hmeals. rewrite Hmeals.
    destruct (Hwhole log today slot amount meals pre Hday) as [Hdom Hother].
    exists pre. eexists. split; [done|]. split; [exact Hrun|].
    split; [|split; [apply lookup_insert_eq|done]].
    intros items Hitems <-. by rewrite add_to_meal_log_ui.
  - intros today slot plate disk disk' v. rewrite log_plate_run.
    destruct disk as [log|]; [|done].
    destruct plate as [e|t]; [done|].
    destruct (add_to_slot _ _ _ _) as [e|log'] eqn:Hadd; [done|].
    intros [= <- <-]. exists log, log'. repeat (split; [done|]).
    apply add_to_slot_inv in Hadd as (meals & old & Hday & Hslot & ->).
    by apply Hwhole.
  - intros [log0|]; simpl.
    + exists log0. repeat (split; [done|]). by intros ? [= ->].
    + exists ∅. repeat (split; [done|]). done.
Qed.

Lemma addCalories_writes_whole_log_witness :
  ∃ log',
    addCalories "2024-01-01" "Lunch" 290 (startup None) =
      (Some log', inr 290) ∧
    log' !! "2024-01-01" = Some (<["Lunch" := 0 + 290]> zero_day) ∧
    load_log (Some log') = (Some log', inr log').
Proof.
  destruct (proj1 addCalories_writes_whole_log ∅ "2024-01-01" "Lunch" 290)
    as (pre & log' & Hpre & Hrun & _ & Hday & _ & _ & Hload).
  - apply map_Forall_empty.
  - apply (bool_decide_unpack _). vm_compute. exact I.
  - rewrite lookup_empty in Hpre, Hday. simpl in Hpre, Hday.
    rewrite zero_day_lookup in Hpre. injection Hpre as <-.
    exists log'. split; [exact Hrun|]. split; [exact Hday|exact Hload].
Defined.

(** ** An unknown slot *)

(** C4. On a well-formed log, a slot name outside [MEAL_TYPES] makes the
    handler end in the [KeyError] of [log[today][meal_choice]], raised
    before [save_log]: the file is exactly what it was, so the tracker
    shows for that date what it showed before. *)
Theorem addCalories_invalid_slot_atomic log today slot amount :
  wf_log log → slot ∉ MEAL_TYPES →
  addCalories today slot amount (Some log) = (Some log, inl (KeyError slot)) ∧
  (∀ items, Forall ui_item items →
     add_to_meal_log today slot items (Some log) =
       (Some log, inl (KeyError slot))) ∧
  (∀ recommended,
     tab_tracker today recommended
       (addCalories today slot amount (Some log)).1 =
     tab_tracker today recommended (Some log)).
Proof.
  intros Hwf Hslot.
  assert (∀ t, addCalories today slot t (Some log) =
               (Some log, inl (KeyError slot))) as Hfail.
  { intros t. unfold addCalories. rewrite log_plate_run.
    pose proof (init_day_lookup today log) as Hday.
    rewrite (add_to_slot_no_slot _ _ _ _ _ Hday); [done|].
    apply wf_day_lookup_None; [|done].
    apply (wf_log_init_day today log Hwf today _ Hday). }
  split; [apply Hfail|]. split.
  - intros items Hitems. rewrite add_to_meal_log_ui by done. apply Hfail.
  - intros recommended. by rewrite Hfail.
Qed.

Lemma addCalories_invalid_slot_atomic_witness :
  addCalories "2024-01-01" "invalid_slot" 10 (Some ∅) =
    (Some ∅, inl (KeyError "invalid_slot")).
Proof.
  apply (addCalories_invalid_slot_atomic ∅ "2024-01-01" "invalid_slot" 10).
  - apply (bool_decide_unpack _). vm_compute. exact I.
  - apply (bool_decide_unpack _). vm_compute. exact I.
Defined.

(** ** The read path *)

(** C5, as the script behaves. For a date with no entry the tracker tab
    renders the "no meals logged" notice and no slot totals, and it leaves
    the file as it was: the date is still absent afterwards. Rendering the
    tab never writes, whatever the file holds. *)
Theorem tab_tracker_absent_day_reads_only (log : MealLog) today recommended :
  log !! today = None →
  tab_tracker today recommended (Some log) = (Some log, inr NoMealsYet) ∧
  (∀ log', (tab_tracker today recommended (Some log)).1 = Some log' →
     log' !! today = None) ∧
  (∀ disk date, (tab_tracker date recommended disk).1 = disk).
Proof.
  intros Hnone. rewrite tab_tracker_run, Hnone. split; [done|]. split.
  - by intros log' [= <-].
  - intros disk date. apply tab_tracker_disk.
Qed.

Lemma tab_tracker_absent_day_reads_only_witness :
  tab_tracker "2024-01-01" None (startup None) =
    (startup None, inr NoMealsYet).
Proof.
  apply (tab_tracker_absent_day_reads_only ∅ "2024-01-01" None).
  reflexivity.
Defined.

(** C5, as stated, fails: on the freshly created log the tab returns no
    slot totals at all for the date, in particular not four zeros. *)
Lemma tab_tracker_absent_day_no_zero_slots :
  ¬ ∃ by_meal total_today advice,
      (tab_tracker "2024-01-01" None (startup None)).2 =
        inr (MealSummary by_meal total_today advice).
Proof. intros (by_meal & total_today & advice & Hview). discriminate Hview. Qed.

(** C7. On a well-formed log the total the tracker shows for a date is
    the sum of the four per-meal totals it shows for that date; for a date
    without an entry it shows neither. *)
Theorem total_today_is_sum_of_slots (log : MealLog) today recommended :
  wf_log log →
  match log !! today with
  | None =>
      tab_tracker today recommended (Some log) = (Some log, inr NoMealsYet)
  | Some meals =>
      ∃ b l d s,
        stored log today "Breakfast" = Some b ∧
        stored log today "Lunch" = Some l ∧
        stored log today "Dinner" = Some d ∧
        stored log today "Snacks" = Some s ∧
        sum_values meals = b + l + d + s ∧
        tab_tracker today recommended (Some log) =
          (Some log,
           inr (MealSummary
                  [("Breakfast", b); ("Lunch", l); ("Dinner", d); ("Snacks", s)]
                  (b + l + d + s)
                  (compare_target (b + l + d + s) <$> recommended)))
  end.
Proof.
  intros Hwf. rewrite tab_tracker_run. unfold stored.
  destruct (log !! today) as [meals|] eqn:Hday; [|done].
  destruct (meal_lines_wf meals (Hwf today meals Hday))
    as (b & l & d & s & Hb & Hl & Hd & Hs & Hlines & Hsum).
  exists b, l, d, s. simpl. rewrite Hlines, Hsum. done.
Qed.

Lemma total_today_is_sum_of_slots_witness :
  ∃ b l d s,
    tab_tracker "2024-01-01" None (Some {[ "2024-01-01" := zero_day ]}) =
      (Some {[ "2024-01-01" := zero_day ]},
       inr (MealSummary
              [("Breakfast", b); ("Lunch", l); ("Dinner", d); ("Snacks", s)]
              (b + l + d + s) None)).
Proof.
  assert (wf_log {[ "2024-01-01" := zero_day ]}) as Hwf.
  { apply map_Forall_singleton, wf_day_zero. }
  pose proof (total_today_is_sum_of_slots {[ "2024-01-01" := zero_day ]}
                "2024-01-01" None Hwf) as Hsum.
  rewrite lookup_singleton_eq in Hsum.
  destruct Hsum as (b & l & d & s & _ & _ & _ & _ & _ & Hview).
  exists b, l, d, s. exact Hview.
Defined.

(** ** Frame *)

(** C9, as the script behaves. A store call leaves every other date's
    entry as it was, present or missing alike. When it succeeds on a date
    that has an entry, every slot of the entry but the chosen one keeps its
    total. When it succeeds on a date without an entry, it creates the
    entry: the other slots, not there before, are there afterwards and hold
    0, as in the all-zero day. When it fails the file is unchanged. What is
    in memory when [save_log] runs is what the file holds afterwards. *)
Theorem addCalories_frame (log : MealLog) today slot amount :
  ∃ log',
    (addCalories today slot amount (Some log)).1 = Some log' ∧
    (∀ date, date ≠ today → log' !! date = log !! date) ∧
    match (addCalories today slot amount (Some log)).2 with
    | inr _ =>
        ∃ meals',
          log' !! today = Some meals' ∧
          ∀ other, other ≠ slot →
            meals' !! other = default zero_day (log !! today) !! other
    | inl _ => log' = log
    end.
Proof.
  unfold addCalories. rewrite log_plate_run.
  destruct (add_to_slot _ _ _ _) as [e|log'] eqn:Hadd; simpl.
  - by exists log.
  - exists log'.
    apply add_to_slot_inv in Hadd as (meals & old & Hday & Hslot & ->).
    split; [done|]. split.
    + intros date Hne. by rewrite lookup_insert_ne, init_day_lookup_ne.
    + rewrite init_day_lookup in Hday. injection Hday as <-.
      eexists. split; [apply lookup_insert_eq|].
      intros other Hne. by rewrite lookup_insert_ne.
Qed.

Lemma addCalories_frame_witness :
  ∃ log',
    (addCalories "2024-01-02" "Dinner" 120
       (Some {[ "2024-01-01" := zero_day ]})).1 = Some log' ∧
    log' !! "2024-01-01" = Some zero_day.
Proof.
  destruct (addCalories_frame {[ "2024-01-01" := zero_day ]}
              "2024-01-02" "Dinner" 120) as (log' & Hrun & Hother & _).
  exists log'. split; [exact Hrun|].
  rewrite Hother; [reflexivity|discriminate].
Defined.

(** C9, as stated, fails: on the freshly created log, a store call of 0
    to the lunch of a date without an entry succeeds and leaves the date
    with all four slots, so breakfast, dinner and snacks, absent before
    the call, hold 0 after it, and the tracker shows four totals where it
    showed the "no meals" notice. *)
Lemma addCalories_creates_other_slots :
  stored ∅ "2024-01-01" "Breakfast" = None ∧
  addCalories "2024-01-01" "Lunch" 0 (startup None) =
    (Some {[ "2024-01-01" := zero_day ]}, inr 0) ∧
  stored {[ "2024-01-01" := zero_day ]} "2024-01-01" "Breakfast" = Some 0 ∧
  stored {[ "2024-01-01" := zero_day ]} "2024-01-01" "Dinner" = Some 0 ∧
  stored {[ "2024-01-01" := zero_day ]} "2024-01-01" "Snacks" = Some 0 ∧
  (tab_tracker "2024-01-01" None (startup None)).2 = inr NoMealsYet ∧
  (tab_tracker "2024-01-01" None (Some {[ "2024-01-01" := zero_day ]})).2 =
    inr (MealSummary
           [("Breakfast", 0); ("Lunch", 0); ("Dinner", 0); ("Snacks", 0)]
           0 None).
Proof. repeat split; vm_compute; reflexivity. Qed.

(** ** Accumulation *)

Lemma tab_tracker_wf_shows (log : MealLog) today recommended slot v :
  wf_log log → slot ∈ MEAL_TYPES → stored log today slot = Some v →
  ∃ by_meal total_today advice,
    tab_tracker today recommended (Some log) =
      (Some log, inr (MealSummary by_meal total_today advice)) ∧
    (slot, v) ∈ by_meal.
Proof.
  intros Hwf Hslot Hstored. rewrite tab_tracker_run. unfold stored in Hstored.
  destruct (log !! today) as [meals|] eqn:Hday; [|done]. simpl in Hstored.
  destruct (meal_lines_wf meals (Hwf today meals Hday))
    as (b & l & d & s & Hb & Hl & Hd & Hs & -> & _).
  do 3 eexists. split; [done|].
  apply elem_of_MEAL_TYPES in Hslot as [-> | [-> | [-> | ->]]];
    simplify_eq; rewrite !elem_of_cons; tauto.
Qed.

(** C1, as the script behaves. On a well-formed log, for a recognised
    slot and non-negative amounts a and b, two successive store calls both
    succeed and leave the slot at its total before the calls (0 when the
    date had no entry) plus a + b, which is what the tracker then shows;
    so the total is exactly a + b when the date was absent. The second
    call changes the file whenever its amount is not 0, also when it
    repeats the first; the initialisation changes nothing on a day that is
    already there. *)
Theorem addCalories_twice_accumulates (log : MealLog) today slot a b
    recommended :
  wf_log log → slot ∈ MEAL_TYPES → 0 ≤ a → 0 ≤ b →
  ∃ pre log1 log2 by_meal total_today advice,
    stored (init_day today log) today slot = Some pre ∧
    (log !! today = None → pre = 0) ∧
    addCalories today slot a (Some log) = (Some log1, inr a) ∧
    addCalories today slot b (Some log1) = (Some log2, inr b) ∧
    stored log1 today slot = Some (pre + a) ∧
    stored log2 today slot = Some (pre + a + b) ∧
    tab_tracker today recommended (Some log2) =
      (Some log2, inr (MealSummary by_meal total_today advice)) ∧
    (slot, pre + a + b) ∈ by_meal ∧
    (b ≠ 0 → log2 ≠ log1) ∧
    init_day today log1 = log1 ∧
    init_day today (init_day today log) = init_day today log.
Proof.
  intros Hwf Hslot Ha Hb.
  destruct (addCalories_wf_run log today slot a Hwf Hslot)
    as (meals & pre & Hday & Hmeals & Hpre & Hge & Hfresh & Hrun1).
  set (log1 := <[today := <[slot := pre + a]> meals]> (init_day today log))
    in *.
  assert (wf_log log1) as Hwf1.
  { destruct (log_plate_disk_ok today slot a (Some log)) as (l & Hl & Hwfl);
      [by exists log|done|].
    unfold addCalories in Hrun1. rewrite Hrun1 in Hl. by injection Hl as <-. }
  assert (stored log1 today slot = Some (pre + a)) as Hstored1
    by apply stored_insert.
  assert (init_day today log1 = log1) as Hinit1.
  { apply init_day_present. unfold log1. rewrite lookup_insert_eq. eauto. }
  destruct (addCalories_wf_run log1 today slot b Hwf1 Hslot)
    as (meals1 & pre1 & Hday1 & _ & Hpre1 & _ & _ & Hrun2).
  assert (pre1 = pre + a) as ->.
  { unfold stored in Hstored1. rewrite Hinit1 in Hday1.
    rewrite Hday1 in Hstored1. simpl in Hstored1. congruence. }
  set (log2 := <[today := <[slot := pre + a + b]> meals1]>
                 (init_day today log1)) in *.
  assert (wf_log log2) as Hwf2.
  { destruct (log_plate_disk_ok today slot b (Some log1)) as (l & Hl & Hwfl);
      [by exists log1|done|].
    unfold addCalories in Hrun2. rewrite Hrun2 in Hl. by injection Hl as <-. }
  assert (stored log2 today slot = Some (pre + a + b)) as Hstored2
    by apply stored_insert.
  destruct (tab_tracker_wf_shows log2 today recommended slot (pre + a + b)
              Hwf2 Hslot Hstored2) as (by_meal & total & advice & Hview & Hin).
  exists pre, log1, log2, by_meal, total, advice.
  split; [unfold stored; by rewrite Hday|].
  split; [intros Hnone; by destruct (Hfresh Hnone)|].
  repeat (split; [done|]).
  split; [|split; [done|apply init_day_idemp]].
  intros Hb0 Heq. rewrite Heq, Hstored1 in Hstored2.
  injection Hstored2 as Hsame. lia.
Qed.

Lemma addCalories_twice_accumulates_witness :
  ∃ log1 log2,
    addCalories "2024-01-01" "Lunch" 290 (Some ∅) = (Some log1, inr 290) ∧
    addCalories "2024-01-01" "Lunch" 133 (Some log1) = (Some log2, inr 133) ∧
    stored log2 "2024-01-01" "Lunch" = Some (0 + 290 + 133).
Proof.
  destruct (addCalories_twice_accumulates ∅ "2024-01-01" "Lunch" 290 133 None)
    as (pre & log1 & log2 & _ & _ & _ & _ & Hfresh & Hrun1 & Hrun2 & _
        & Hstored2 & _).
  - apply map_Forall_empty.
  - apply (bool_decide_unpack _). vm_compute. exact I.
  - lia.
  - lia.
  - exists log1, log2. split; [exact Hrun1|]. split; [exact Hrun2|].
    rewrite <- (Hfresh (lookup_empty _)). exact Hstored2.
Defined.

(** C1, as stated, fails: after a banana (105) was logged for breakfast,
    two further calls with 95 and 62 leave the breakfast total at 262,
    which is not 95 + 62. *)
Lemma addCalories_twice_not_a_plus_b :
  (addCalories "2024-01-01" "Breakfast" 62
     (addCalories "2024-01-01" "Breakfast" 95
        (add_to_meal_log "2024-01-01" "Breakfast" [("banana", 1)]
           (startup None)).1).1).1
  = Some {[ "2024-01-01" := <["Breakfast" := 262]> zero_day ]} ∧
  stored {[ "2024-01-01" := <["Breakfast" := 262]> zero_day ]}
    "2024-01-01" "Breakfast" = Some 262 ∧
  262 ≠ 95 + 62.
Proof.
  split; [vm_compute; reflexivity|].
  split; [vm_compute; reflexivity|lia].
Qed.

(** ** Monotonicity *)

Lemma day_le_refl meals : day_le meals meals.
Proof. intros slot v Hv. exists v. split; [done|lia]. Qed.

Lemma day_le_trans m1 m2 m3 : day_le m1 m2 → day_le m2 m3 → day_le m1 m3.
Proof.
  intros H12 H23 slot v Hv.
  destruct (H12 slot v Hv) as (v2 & Hv2 & Hle2).
  destruct (H23 slot v2 Hv2) as (v3 & Hv3 & Hle3).
  exists v3. split; [done|lia].
Qed.

Lemma log_le_refl log : log_le log log.
Proof. intros date meals Hday. exists meals. split; [done|apply day_le_refl]. Qed.

Lemma log_le_trans l1 l2 l3 : log_le l1 l2 → log_le l2 l3 → log_le l1 l3.
Proof.
  intros H12 H23 date m1 Hm1.
  destruct (H12 date m1 Hm1) as (m2 & Hm2 & Hle2).
  destruct (H23 date m2 Hm2) as (m3 & Hm3 & Hle3).
  exists m3. split; [done|]. by eapply day_le_trans.
Qed.

Lemma log_plate_log_le today slot t (log : MealLog) :
  0 ≤ t →
  ∃ log', (log_plate today slot (inr t) (Some log)).1 = Some log' ∧
          log_le log log'.
Proof.
  intros Ht. rewrite log_plate_run.
  destruct (add_to_slot _ _ _ _) as [e|log'] eqn:Hadd; simpl.
  - exists log. split; [done|apply log_le_refl].
  - exists log'. split; [done|].
    apply add_to_slot_inv in Hadd as (meals & old & Hday & Hslot & ->).
    intros date m Hm. destruct (decide (date = today)) as [->|Hne].
    + rewrite init_day_lookup, Hm in Hday. simpl in Hday.
      injection Hday as <-.
      eexists. split; [apply lookup_insert_eq|].
      intros other v Hv. destruct (decide (other = slot)) as [->|Hne].
      * rewrite lookup_insert_eq. eexists. split; [done|].
        assert (v = old) by congruence. lia.
      * rewrite lookup_insert_ne by done. exists v. split; [done|lia].
    + exists m. rewrite lookup_insert_ne, init_day_lookup_ne by done.
      split; [done|apply day_le_refl].
Qed.

Lemma step_log_le log disk' :
  step (Some log) disk' → ∃ log', disk' = Some log' ∧ log_le log log'.
Proof.
  intros Hstep. inversion Hstep as [disk|disk today mc items Hmc Hitems
    |disk today slot amount Hamount|disk today recommended]; subst.
  - exists log. split; [done|apply log_le_refl].
  - rewrite add_to_meal_log_ui by done.
    destruct (log_plate_log_le today mc (calorie_sum items) log) as (l & ? & ?);
      [by apply total_plate_ui|]. by exists l.
  - destruct (log_plate_log_le today slot amount log Hamount) as (l & ? & ?).
    by exists l.
  - rewrite tab_tracker_disk. exists log. split; [done|apply log_le_refl].
Qed.

Lemma rtc_step_log_le disk disk' log :
  rtc step disk disk' → disk = Some log →
  ∃ log', disk' = Some log' ∧ log_le log log'.
Proof.
  intros Hsteps. revert log.
  induction Hsteps as [disk|disk mid disk' Hstep _ IH]; intros log ->.
  - exists log. split; [done|apply log_le_refl].
  - destruct (step_log_le log mid Hstep) as (log1 & -> & Hle1).
    destruct (IH log1 eq_refl) as (log' & -> & Hle').
    exists log'. split; [done|]. by eapply log_le_trans.
Qed.

(** A well-formed day below the all-zero day is the all-zero day. *)
Lemma day_le_zero_day meals :
  wf_day meals → day_le meals zero_day → meals = zero_day.
Proof.
  intros Hwf Hle.
  destruct (wf_day_shape meals Hwf) as (b & l & d & s & -> & Hb & Hl & Hd & Hs).
  assert (∀ slot v, slot ∈ MEAL_TYPES →
            (<["Breakfast" := b]> (<["Lunch" := l]> (<["Dinner" := d]>
               (<["Snacks" := s]> (∅ : DaySlots))))) !! slot = Some v →
            v ≤ 0) as Hzero.
  { intros slot v Hslot Hv. destruct (Hle slot v Hv) as (v' & Hv' & Hvv').
    rewrite zero_day_lookup, decide_True in Hv' by done.
    injection Hv' as <-. done. }
  assert (b = 0) as ->.
  { pose proof (Hzero "Breakfast" b) as H.
    rewrite elem_of_MEAL_TYPES in H. specialize (H ltac:(tauto) eq_refl). lia. }
  assert (l = 0) as ->.
  { pose proof (Hzero "Lunch" l) as H.
    rewrite elem_of_MEAL_TYPES in H. specialize (H ltac:(tauto) eq_refl). lia. }
  assert (d = 0) as ->.
  { pose proof (Hzero "Dinner" d) as H.
    rewrite elem_of_MEAL_TYPES in H. specialize (H ltac:(tauto) eq_refl). lia. }
  assert (s = 0) as ->.
  { pose proof (Hzero "Snacks" s) as H.
    rewrite elem_of_MEAL_TYPES in H. specialize (H ltac:(tauto) eq_refl). lia. }
  by rewrite zero_day_eq.
Qed.

Lemma log_le_state_rank log log' date :
  wf_log log → log_le log log' →
  (state_rank (day_state log date) ≤ state_rank (day_state log' date))%nat.
Proof.
  intros Hwf Hle. unfold day_state.
  destruct (log !! date) as [meals|] eqn:Hday; [|simpl; lia].
  destruct (Hle date meals Hday) as (meals' & -> & Hday_le).
  destruct (decide (meals = zero_day)) as [->|Hne];
    destruct (decide (meals' = zero_day)) as [->|Hne']; simpl; try lia.
  exfalso. apply Hne. apply day_le_zero_day; [|done].
  by apply (Hwf date).
Qed.

(** C8. Along any sequence of the script's steps from a reachable state,
    no date leaves the file and no stored total decreases. A date's state
    only moves forward through absent, all slots 0, accumulated; in the
    last two every slot is present and non-negative. *)
Theorem slots_monotone disk disk' :
  reachable disk → rtc step disk disk' →
  ∃ log log',
    disk = Some log ∧ disk' = Some log' ∧
    (∀ date meals, log !! date = Some meals →
       ∃ meals', log' !! date = Some meals' ∧
         ∀ slot v, meals !! slot = Some v →
           ∃ v', meals' !! slot = Some v' ∧ v ≤ v') ∧
    (∀ date,
       (state_rank (day_state log date)
          ≤ state_rank (day_state log' date))%nat) ∧
    (∀ date,
       match day_state log' date with
       | Absent => log' !! date = None
       | Initialized => log' !! date = Some zero_day
       | Accumulated =>
           ∃ meals', log' !! date = Some meals' ∧ meals' ≠ zero_day ∧
             ∀ slot, slot ∈ MEAL_TYPES → ∃ v, meals' !! slot = Some v ∧ 0 ≤ v
       end).
Proof.
  intros Hreach Hsteps.
  destruct (reachable_disk_ok disk Hreach) as (log & -> & Hwf).
  destruct (rtc_step_log_le _ _ log Hsteps eq_refl) as (log' & -> & Hle).
  assert (wf_log log') as Hwf'.
  { destruct (rtc_step_disk_ok (Some log) (Some log')) as (l & [= <-] & Hl);
      [by exists log|done|done]. }
  exists log, log'. repeat (split; [done|]). split.
  - intros date. by apply log_le_state_rank.
  - intros date. unfold day_state.
    destruct (log' !! date) as [meals'|] eqn:Hday; [|done].
    destruct (decide (meals' = zero_day)) as [->|Hne]; [done|].
    exists meals'. repeat (split; [done|]).
    intros slot Hslot. apply wf_day_lookup; [|done]. by apply (Hwf' date).
Qed.

Lemma slots_monotone_witness :
  ∃ log log',
    startup None = Some log ∧
    (add_to_meal_log "2024-01-01" "Lunch" [("dosa", 2)] (startup None)).1 =
      Some log' ∧
    ∀ date,
      (state_rank (day_state log date) ≤ state_rank (day_state log' date))%nat.
Proof.
  destruct (slots_monotone (startup None)
              (add_to_meal_log "2024-01-01" "Lunch" [("dosa", 2)]
                 (startup None)).1)
    as (log & log' & Hstart & Hdisk & _ & Hrank & _).
  - apply rtc_refl.
  - apply rtc_once, step_button.
    + apply (bool_decide_unpack _). vm_compute. exact I.
    + apply (bool_decide_unpack _). vm_compute. exact I.
  - exists log, log'. split; [exact Hstart|]. split; [exact Hdisk|].
    exact Hrank.
Defined.

(** ** The detection loop *)

Lemma list_index_lookup x l i : list_index x l = inr i → l !! i = Some x.
Proof.
  revert i. induction l as [|y l IH]; intros i; simpl; [done|].
  case_decide as Hxy.
  - intros [= <-]. by subst.
  - destruct (list_index x l) as [e|j]; simpl; [done|].
    intros [= <-]. by apply IH.
Qed.

Lemma list_index_elem x l : x ∈ l → ∃ i, list_index x l = inr i.
Proof.
  induction l as [|y l IH]; [by intros ?%elem_of_nil|].
  intros Hin. simpl. case_decide as Hxy; [by eexists|].
  apply elem_of_cons in Hin as [?|Hin]; [done|].
  destruct (IH Hin) as [i ->]. by eexists.
Qed.

Lemma apple_key : "apple" ∈ NUTRITION_keys.
Proof. apply (bool_decide_unpack _). vm_compute. exact I. Qed.

Lemma detected_name_key str_lower results cls label :
  detected_name str_lower results cls = inr label → label ∈ NUTRITION_keys.
Proof.
  unfold detected_name. destruct (names results !! cls) as [raw|]; [|done].
  intros [= <-]. unfold in_NUTRITION. case_bool_decide; [done|apply apple_key].
Qed.

Section loop_facts.
Context {Session : Type}.
Variable str_lower : string → string.
Variable selectbox : string → list string → nat → string → Session → string.
Variable number_input : string → Z → Z → Z → string → Session → Z.
Variable results : Results.
Variable σ : Session.
Variable P : string * Z → Prop.

Hypothesis body_P : ∀ i index,
  (index < length NUTRITION_keys)%nat →
  let name :=
    selectbox ("Detected item " +:+ pretty (i + 1)%nat)
      NUTRITION_keys index ("label_" +:+ pretty i) σ in
  P (name, number_input ("Count for " +:+ name) 1 20 1
             ("count_" +:+ pretty i) σ).

Local Arguments list_index : simpl never.

Lemma detection_loop_Forall todo : ∀ i acc items,
  Forall P acc →
  detection_loop str_lower selectbox number_input results σ i todo acc
    = inr items →
  Forall P items ∧ length items = (length acc + length todo)%nat.
Proof.
  induction todo as [|cls todo IH]; intros i acc items Hacc; simpl.
  - intros [= <-]. split; [done|lia].
  - destruct (detected_name str_lower results cls) as [e|detected]; [done|].
    simpl.
    destruct (list_index detected NUTRITION_keys) as [e|index] eqn:Hindex;
      [done|]. simpl.
    intros Hloop. apply IH in Hloop as [Hitems Hlen].
    + split; [done|]. rewrite Hlen, length_app. simpl. lia.
    + apply Forall_app. split; [done|]. apply Forall_singleton.
      apply body_P. eapply lookup_lt_Some, list_index_lookup, Hindex.
Qed.
End loop_facts.

(** The example widgets meet what is assumed of Streamlit's. *)
Lemma edits_selectbox_option label options index key σ :
  (index < length options)%nat →
  edits_selectbox label options index key σ ∈ options.
Proof.
  intros Hlt. unfold edits_selectbox.
  destruct (picked σ !! key ≫= (options !!.)) as [choice|] eqn:Hpick.
  - destruct (picked σ !! key) as [j|]; [|done]. simpl in Hpick.
    by eapply list_elem_of_lookup_2.
  - destruct (lookup_lt_is_Some_2 options index Hlt) as [x Hx].
    rewrite Hx. simpl. by eapply list_elem_of_lookup_2.
Qed.

Lemma edits_number_input_range label lo hi value key σ :
  lo ≤ value ≤ hi → lo ≤ edits_number_input label lo hi value key σ ≤ hi.
Proof.
  intros Hvalue. unfold edits_number_input.
  destruct (typed σ !! key) as [v|]; [|done]. by case_bool_decide.
Qed.

Lemma edits_number_input_default label lo hi value key :
  edits_number_input label lo hi value key no_edits = value.
Proof. done. Qed.

(** ** The detection adapter's label *)

(** C6. For a box whose class the detector names, the label offered is
    the class name lower-cased when that is a key of [NUTRITION] and
    ["apple"] otherwise; ["apple"] is a key, so the label always is one,
    and looking up its position among the keys never fails. *)
Theorem detected_name_is_key (str_lower : string → string) results cls
    class_name :
  names results !! cls = Some class_name →
  detected_name str_lower results cls =
    inr (if in_NUTRITION (str_lower class_name)
         then str_lower class_name else "apple") ∧
  (str_lower class_name ∈ NUTRITION_keys →
     detected_name str_lower results cls = inr (str_lower class_name)) ∧
  (str_lower class_name ∉ NUTRITION_keys →
     detected_name str_lower results cls = inr "apple") ∧
  "apple" ∈ NUTRITION_keys ∧
  ∃ label index,
    detected_name str_lower results cls = inr label ∧
    label ∈ NUTRITION_keys ∧
    list_index label NUTRITION_keys = inr index ∧
    NUTRITION_keys !! index = Some label.
Proof.
  intros Hname. unfold detected_name at 1 2 3. rewrite Hname.
  unfold in_NUTRITION.
  split; [done|]. split; [|split; [|split; [apply apple_key|]]].
  - intros Hin. by rewrite bool_decide_eq_true_2.
  - intros Hnotin. by rewrite bool_decide_eq_false_2.
  - destruct (detected_name str_lower results cls) as [e|label] eqn:Hdet.
    { unfold detected_name in Hdet. by rewrite Hname in Hdet. }
    pose proof (detected_name_key _ _ _ _ Hdet) as Hkey.
    destruct (list_index_elem label NUTRITION_keys Hkey) as [index Hindex].
    exists label, index. repeat (split; [done|]).
    by apply list_index_lookup.
Qed.

Lemma detected_name_is_key_witness :
  detected_name ascii_lower
    {| boxes := [52]; names := {[ 52 := "Hotdog" ]} |} 52 = inr "apple".
Proof.
  destruct (detected_name_is_key ascii_lower
              {| boxes := [52]; names := {[ 52 := "Hotdog" ]} |} 52 "Hotdog")
    as (_ & _ & Hfallback & _).
  - reflexivity.
  - apply Hfallback. apply (bool_decide_unpack _). vm_compute. exact I.
Defined.

(** ** Counts and the plate *)

(** C10. Given Streamlit's widgets (a selection is one of the options, a
    number lies between [min_value] and [max_value], an untouched number
    widget returns its [value]), every item the loop hands to the handler
    names a key of [NUTRITION] and has a count from 1 to 20, the count
    being 1 where nothing was edited. The plate total is then the sum of
    calorie value times count; every calorie value of the table is positive,
    so a plate with an item is strictly positive, and pressing the button
    adds exactly that total to the chosen slot. *)
Theorem count_range_plate_positive {Session : Type}
    (str_lower : string → string)
    (selectbox : string → list string → nat → string → Session → string)
    (number_input : string → Z → Z → Z → string → Session → Z)
    (untouched : Session) results σ items :
  (∀ label options index key s,
     (index < length options)%nat →
     selectbox label options index key s ∈ options) →
  (∀ label lo hi value key s,
     lo ≤ value ≤ hi → lo ≤ number_input label lo hi value key s ≤ hi) →
  (∀ label lo hi value key,
     number_input label lo hi value key untouched = value) →
  detect_items str_lower selectbox number_input results σ = inr items →
  Forall (λ item, item.1 ∈ NUTRITION_keys ∧ 1 ≤ item.2 ≤ 20) items ∧
  length items = length (boxes results) ∧
  (σ = untouched → Forall (λ item, item.2 = 1) items) ∧
  total_plate items = inr (calorie_sum items) ∧
  (items ≠ [] → 0 < calorie_sum items) ∧
  Forall (λ entry, 0 < calories entry.2) NUTRITION ∧
  (∀ (log : MealLog) today meal_choice,
     wf_log log → meal_choice ∈ MEAL_TYPES →
     ∃ pre log',
       stored (init_day today log) today meal_choice = Some pre ∧
       add_to_meal_log today meal_choice items (Some log) =
         (Some log', inr (calorie_sum items)) ∧
       stored log' today meal_choice = Some (pre + calorie_sum items)).
Proof.
  intros Hselect Hnumber Hdefault Hloop. unfold detect_items in Hloop.
  assert (Forall ui_item items ∧ length items = length (boxes results))
    as [Hitems Hlen].
  { eapply (detection_loop_Forall str_lower selectbox number_input results σ
              ui_item) in Hloop; [done| |done].
    intros i index Hindex. split; simpl.
    - by apply Hselect.
    - by apply Hnumber. }
  destruct (total_plate_ui items Hitems) as (Htotal & _ & Hpos).
  split; [done|]. split; [done|]. split.
  { intros ->.
    eapply (detection_loop_Forall str_lower selectbox number_input results
              untouched (λ item, item.2 = 1)) in Hloop; [apply Hloop| |done].
    intros i index _. simpl. apply Hdefault. }
  split; [done|]. split; [done|]. split.
  { apply (bool_decide_unpack _). vm_compute. exact I. }
  intros log today meal_choice Hwf Hmeal.
  destruct (addCalories_wf_run log today meal_choice (calorie_sum items)
              Hwf Hmeal) as (meals & pre & Hday & _ & Hpre & _ & _ & Hrun).
  exists pre. eexists. split; [unfold stored; by rewrite Hday|].
  split; [by rewrite add_to_meal_log_ui|]. apply stored_insert.
Qed.

Lemma count_range_plate_positive_witness :
  detect_items ascii_lower edits_selectbox edits_number_input
    {| boxes := [46; 52]; names := {[ 46 := "Banana"; 52 := "Hotdog" ]} |}
    {| picked := ∅; typed := {[ "count_0" := 3; "count_1" := 21 ]} |}
    = inr [("banana", 3); ("apple", 1)] ∧
  total_plate [("banana", 3); ("apple", 1)] = inr 410.
Proof.
  split; [vm_compute; reflexivity|].
  destruct (count_range_plate_positive ascii_lower edits_selectbox
              edits_number_input no_edits
              {| boxes := [46; 52];
                 names := {[ 46 := "Banana"; 52 := "Hotdog" ]} |}
              {| picked := ∅; typed := {[ "count_0" := 3; "count_1" := 21 ]} |}
              [("banana", 3); ("apple", 1)])
    as (_ & _ & _ & Htotal & _).
  - apply edits_selectbox_option.
  - apply edits_number_input_range.
  - apply edits_number_input_default.
  - vm_compute. reflexivity.
  - exact Htotal.
Defined.

(** * Further properties of the script *)

(** ** The plate total *)

Local Arguments NUTRITION_getitem : simpl never.

Lemma plate_sum_known acc items :
  Forall (λ item, item.1 ∈ NUTRITION_keys) items →
  plate_sum acc items = inr (acc + calorie_sum items).
Proof.
  intros Hitems. revert acc.
  induction Hitems as [|[name count] rest Hname _ IH]; intros acc; simpl.
  - f_equal. lia.
  - destruct (NUTRITION_getitem_key name Hname) as (item & -> & Hk & _).
    simpl. rewrite IH, Hk. f_equal. lia.
Qed.

Lemma total_plate_known items :
  Forall (λ item, item.1 ∈ NUTRITION_keys) items →
  total_plate items = inr (calorie_sum items).
Proof. intros Hitems. unfold total_plate. by rewrite plate_sum_known. Qed.

Lemma plate_sum_app acc xs ys :
  plate_sum acc (xs ++ ys) = plate_sum acc xs ≫= λ t, plate_sum t ys.
Proof.
  revert acc. induction xs as [|[name count] xs IH]; intros acc; simpl; [done|].
  destruct (NUTRITION_getitem name) as [e|item]; simpl; [done|]. apply IH.
Qed.

Lemma plate_sum_shift acc items :
  plate_sum acc items = (λ t, acc + t) <$> plate_sum 0 items.
Proof.
  revert acc. induction items as [|[name count] items IH]; intros acc; simpl.
  - unfold fmap, result_fmap. f_equal. lia.
  - destruct (NUTRITION_getitem name) as [e|item]; simpl; [done|].
    rewrite (IH (acc + _)), (IH (0 + _)).
    destruct (plate_sum 0 items) as [e|t]; simpl; [done|].
    unfold fmap, result_fmap. f_equal. lia.
Qed.

(** X1. The total of two plates put together is the sum of their totals; if
    either has an unknown name, the first such name is the [KeyError]. *)
Theorem total_plate_app xs ys :
  total_plate (xs ++ ys) =
    total_plate xs ≫= λ a, total_plate ys ≫= λ b, inr (a + b).
Proof.
  unfold total_plate. rewrite plate_sum_app.
  destruct (plate_sum 0 xs) as [e|a]; simpl; [done|].
  rewrite plate_sum_shift. by destruct (plate_sum 0 ys).
Qed.

Lemma calorie_sum_app xs ys :
  calorie_sum (xs ++ ys) = calorie_sum xs + calorie_sum ys.
Proof. induction xs as [|[name count] xs IH]; simpl; lia. Qed.

Lemma calorie_sum_Permutation xs ys :
  xs ≡ₚ ys → calorie_sum xs = calorie_sum ys.
Proof.
  induction 1 as [|[n c] xs ys _ IH|[n c] [n' c'] xs|xs ys zs _ IH1 _ IH2];
    simpl; lia.
Qed.

(** X2. The order of the items on the plate does not matter to its total,
    whatever the counts, as long as every name is in the table. *)
Theorem total_plate_Permutation xs ys :
  Forall (λ item, item.1 ∈ NUTRITION_keys) xs →
  xs ≡ₚ ys →
  total_plate ys = total_plate xs ∧ total_plate xs = inr (calorie_sum xs).
Proof.
  intros Hxs Hperm.
  assert (Forall (λ item, item.1 ∈ NUTRITION_keys) ys) as Hys
    by (by rewrite <- Hperm).
  rewrite !total_plate_known by done.
  split; [|done]. f_equal. symmetry. by apply calorie_sum_Permutation.
Qed.

Lemma total_plate_Permutation_witness :
  total_plate [("dosa", 2); ("idli", 3)] =
    total_plate [("idli", 3); ("dosa", 2)].
Proof.
  apply (total_plate_Permutation [("idli", 3); ("dosa", 2)]
           [("dosa", 2); ("idli", 3)]).
  - apply (bool_decide_unpack _). vm_compute. exact I.
  - apply Permutation_swap.
Defined.

Lemma plate_sum_unknown acc known name count rest :
  Forall (λ item, item.1 ∈ NUTRITION_keys) known →
  name ∉ NUTRITION_keys →
  plate_sum acc (known ++ (name, count) :: rest) = inl (KeyError name).
Proof.
  intros Hknown Hname. rewrite plate_sum_app, plate_sum_known by done.
  simpl. by rewrite NUTRITION_getitem_not_key.
Qed.

(** X3. A plate with a name outside the table: the handler ends in the
    [KeyError] of the first such name, raised before [save_log], so the
    file is what it was; today's entry, if it was created, was created in
    memory only. *)
Theorem add_to_meal_log_unknown_food (log : MealLog) today meal_choice
    known name count rest :
  Forall (λ item, item.1 ∈ NUTRITION_keys) known →
  name ∉ NUTRITION_keys →
  add_to_meal_log today meal_choice (known ++ (name, count) :: rest)
    (Some log) = (Some log, inl (KeyError name)).
Proof.
  intros Hknown Hname. unfold add_to_meal_log, total_plate.
  rewrite (plate_sum_unknown _ _ _ _ _ Hknown Hname).
  by rewrite log_plate_run.
Qed.

Lemma add_to_meal_log_unknown_food_witness :
  add_to_meal_log "2024-01-01" "Lunch"
    ([("dosa", 1)] ++ ("pizza", 2) :: [("sushi", 1)]) (Some ∅) =
    (Some ∅, inl (KeyError "pizza")).
Proof.
  apply (add_to_meal_log_unknown_food ∅ "2024-01-01" "Lunch"
           [("dosa", 1)] "pizza" 2 [("sushi", 1)]).
  - apply (bool_decide_unpack _). vm_compute. exact I.
  - apply (bool_decide_unpack _). vm_compute. exact I.
Defined.

(** ** What a successful press writes *)

Lemma addCalories_bump (log : MealLog) today slot amount :
  is_Some (default zero_day (log !! today) !! slot) →
  addCalories today slot amount (Some log) =
    (Some (bump today slot amount log), inr amount).
Proof.
  intros [pre Hpre]. unfold addCalories. rewrite log_plate_run.
  rewrite (add_to_slot_Some _ _ _ _ _ pre (init_day_lookup today log) Hpre).
  unfold bump. rewrite Hpre. simpl. do 2 f_equal.
  unfold init_day. destruct (log !! today); [done|].
  by rewrite insert_insert_eq.
Qed.

Lemma wf_log_slot (log : MealLog) today slot :
  wf_log log → slot ∈ MEAL_TYPES →
  is_Some (default zero_day (log !! today) !! slot).
Proof.
  intros Hwf Hslot.
  assert (wf_day (default zero_day (log !! today))) as Hday.
  { destruct (log !! today) as [meals|] eqn:Hlookup; simpl.
    - by apply (Hwf today). - apply wf_day_zero. }
  destruct (wf_day_lookup _ slot Hday Hslot) as (v & Hv & _). eauto.
Qed.

Lemma wf_log_bump (log : MealLog) today slot amount :
  wf_log log → slot ∈ MEAL_TYPES → 0 ≤ amount →
  wf_log (bump today slot amount log).
Proof.
  intros Hwf Hslot Hamount.
  destruct (log_plate_disk_ok today slot amount (Some log))
    as (log' & Hrun & Hwf'); [by exists log|done|].
  fold (addCalories today slot amount) in Hrun.
  rewrite addCalories_bump in Hrun by by apply wf_log_slot.
  simpl in Hrun. by injection Hrun as <-.
Qed.

Lemma bump_lookup (log : MealLog) today slot amount :
  bump today slot amount log !! today =
    Some (<[slot := default 0 (default zero_day (log !! today) !! slot)
                      + amount]> (default zero_day (log !! today))).
Proof. unfold bump. apply lookup_insert_eq. Qed.

Lemma bump_lookup_ne (log : MealLog) today date slot amount :
  date ≠ today → bump today slot amount log !! date = log !! date.
Proof. intros Hne. unfold bump. by rewrite lookup_insert_ne. Qed.

Lemma bump_bump (log : MealLog) today slot a b :
  bump today slot b (bump today slot a log) = bump today slot (a + b) log.
Proof.
  unfold bump at 1. rewrite bump_lookup. simpl. rewrite lookup_insert_eq.
  simpl. unfold bump. rewrite !insert_insert_eq. do 2 f_equal. lia.
Qed.

Lemma bump_comm (log : MealLog) d1 s1 a d2 s2 b :
  bump d1 s1 a (bump d2 s2 b log) = bump d2 s2 b (bump d1 s1 a log).
Proof.
  destruct (decide (d1 = d2)) as [->|Hd].
  - unfold bump at 1 3. rewrite !bump_lookup. simpl.
    unfold bump. rewrite !insert_insert_eq. f_equal.
    destruct (decide (s1 = s2)) as [->|Hs].
    + rewrite !lookup_insert_eq, !insert_insert_eq. simpl. f_equal. lia.
    + rewrite !lookup_insert_ne by done.
      by rewrite insert_insert_ne.
  - unfold bump at 1 3. rewrite !bump_lookup_ne by done.
    unfold bump. by rewrite insert_insert_ne.
Qed.

(** X4. Pressing the button with no detected item still writes: for a date
    without an entry it creates the all-zero entry, and from then on the
    tracker shows four zero totals for that date instead of the "no meals"
    notice. *)
Theorem empty_plate_initialises_day (log : MealLog) today meal_choice
    recommended :
  log !! today = None → meal_choice ∈ MEAL_TYPES →
  tab_tracker today recommended (Some log) = (Some log, inr NoMealsYet) ∧
  add_to_meal_log today meal_choice [] (Some log) =
    (Some (<[today := zero_day]> log), inr 0) ∧
  tab_tracker today recommended (Some (<[today := zero_day]> log)) =
    (Some (<[today := zero_day]> log),
     inr (MealSummary
            [("Breakfast", 0); ("Lunch", 0); ("Dinner", 0); ("Snacks", 0)]
            0 (compare_target 0 <$> recommended))).
Proof.
  intros Hnone Hslot. split; [by rewrite tab_tracker_run, Hnone|].
  assert (zero_day !! meal_choice = Some 0) as Hzero
    by (by rewrite zero_day_lookup, decide_True).
  split.
  - change (add_to_meal_log today meal_choice [])
      with (addCalories today meal_choice 0).
    rewrite addCalories_bump by (rewrite Hnone; simpl; eauto).
    unfold bump. rewrite Hnone. simpl. rewrite Hzero. simpl.
    change (0 + 0) with 0. by rewrite (insert_id zero_day).
  - rewrite tab_tracker_run, lookup_insert_eq.
    destruct (meal_lines_wf zero_day wf_day_zero)
      as (b & l & d & s & Hb & Hl & Hd & Hs & -> & ->).
    rewrite zero_day_lookup in Hb, Hl, Hd, Hs.
    rewrite decide_True in Hb by (apply elem_of_MEAL_TYPES; tauto).
    rewrite decide_True in Hl by (apply elem_of_MEAL_TYPES; tauto).
    rewrite decide_True in Hd by (apply elem_of_MEAL_TYPES; tauto).
    rewrite decide_True in Hs by (apply elem_of_MEAL_TYPES; tauto).
    by simplify_eq.
Qed.

Lemma empty_plate_initialises_day_witness :
  add_to_meal_log "2024-01-01" "Snacks" [] (Some ∅) =
    (Some (<["2024-01-01" := zero_day]> ∅), inr 0).
Proof.
  apply (empty_plate_initialises_day ∅ "2024-01-01" "Snacks" None).
  - reflexivity.
  - apply (bool_decide_unpack _). vm_compute. exact I.
Defined.

(** X5. Logging two plates one after the other for the same date and meal
    leaves the file as logging the two plates as one does. *)
Theorem add_to_meal_log_two_plates (log : MealLog) today meal_choice xs ys :
  wf_log log → meal_choice ∈ MEAL_TYPES →
  Forall ui_item xs → Forall ui_item ys →
  (add_to_meal_log today meal_choice ys
     (add_to_meal_log today meal_choice xs (Some log)).1).1 =
  (add_to_meal_log today meal_choice (xs ++ ys) (Some log)).1 ∧
  (add_to_meal_log today meal_choice (xs ++ ys) (Some log)).2 =
    inr (calorie_sum xs + calorie_sum ys).
Proof.
  intros Hwf Hslot Hxs Hys.
  assert (Forall ui_item (xs ++ ys)) as Hxys by (by apply Forall_app).
  pose proof (calorie_sum_app xs ys) as Hsum.
  rewrite !add_to_meal_log_ui by done.
  rewrite (addCalories_bump log) by by apply wf_log_slot.
  simpl. rewrite !addCalories_bump.
  - simpl. by rewrite bump_bump, Hsum.
  - by apply wf_log_slot.
  - apply wf_log_slot; [|done]. apply wf_log_bump; [done..|].
    by apply total_plate_ui.
Qed.

Lemma add_to_meal_log_two_plates_witness :
  (add_to_meal_log "2024-01-01" "Lunch" [("dosa", 1)]
     (add_to_meal_log "2024-01-01" "Lunch" [("biryani", 1)] (Some ∅)).1).1 =
  (add_to_meal_log "2024-01-01" "Lunch" ([("biryani", 1)] ++ [("dosa", 1)])
     (Some ∅)).1.
Proof.
  apply (add_to_meal_log_two_plates ∅ "2024-01-01" "Lunch"
           [("biryani", 1)] [("dosa", 1)]).
  - apply map_Forall_empty.
  - apply (bool_decide_unpack _). vm_compute. exact I.
  - apply (bool_decide_unpack _). vm_compute. exact I.
  - apply (bool_decide_unpack _). vm_compute. exact I.
Defined.

(** X6. Two store calls, for any two dates and recognised slots, can be made
    in either order: both orders succeed, the log read back has the same
    entry for every date, and the tracker shows the same for every date.
    (The order of the keys in the document, which no part of the script
    reads, is not compared.) *)
Theorem addCalories_commute (log : MealLog) d1 s1 a d2 s2 b :
  wf_log log → s1 ∈ MEAL_TYPES → s2 ∈ MEAL_TYPES → 0 ≤ a → 0 ≤ b →
  ∃ log12 log21,
    addCalories d2 s2 b (addCalories d1 s1 a (Some log)).1 =
      (Some log12, inr b) ∧
    addCalories d1 s1 a (addCalories d2 s2 b (Some log)).1 =
      (Some log21, inr a) ∧
    (∀ date, log12 !! date = log21 !! date) ∧
    (∀ date recommended,
       (tab_tracker date recommended (Some log12)).2 =
       (tab_tracker date recommended (Some log21)).2).
Proof.
  intros Hwf Hs1 Hs2 Ha Hb.
  rewrite (addCalories_bump log d1), (addCalories_bump log d2)
    by by apply wf_log_slot.
  simpl. rewrite !addCalories_bump
    by (apply wf_log_slot; [by apply wf_log_bump|done]).
  do 2 eexists. split; [done|]. split; [done|].
  rewrite (bump_comm log d2 s2 b d1 s1 a). done.
Qed.

Lemma addCalories_commute_witness :
  ∃ log12 log21 : MealLog,
    addCalories "2024-01-02" "Dinner" 120
      (addCalories "2024-01-01" "Lunch" 290 (Some ∅)).1 =
      (Some log12, inr 120) ∧
    addCalories "2024-01-01" "Lunch" 290
      (addCalories "2024-01-02" "Dinner" 120 (Some ∅)).1 =
      (Some log21, inr 290) ∧
    ∀ date, log12 !! date = log21 !! date.
Proof.
  destruct (addCalories_commute ∅ "2024-01-01" "Lunch" 290
              "2024-01-02" "Dinner" 120)
    as (log12 & log21 & H12 & H21 & Hsame & _).
  - apply map_Forall_empty.
  - apply (bool_decide_unpack _). vm_compute. exact I.
  - apply (bool_decide_unpack _). vm_compute. exact I.
  - lia.
  - lia.
  - exists log12, log21. split; [exact H12|]. split; [exact H21|exact Hsame].
Defined.

(** ** The tracker after a press *)

Lemma sum_values_insert (meals : DaySlots) slot old v :
  meals !! slot = Some old →
  sum_values (<[slot := v]> meals) = sum_values meals - old + v.
Proof.
  intros Hold. unfold sum_values.
  rewrite <- (insert_delete_id meals slot old Hold) at 2.
  rewrite <- (insert_delete_eq meals slot v).
  rewrite !map_fold_insert_L;
    [lia|intros; lia|apply lookup_delete_eq|intros; lia|apply lookup_delete_eq].
Qed.

Lemma sum_values_zero_day : sum_values zero_day = 0.
Proof.
  destruct (meal_lines_wf zero_day wf_day_zero)
    as (b & l & d & s & Hb & Hl & Hd & Hs & _ & ->).
  rewrite zero_day_lookup in Hb, Hl, Hd, Hs.
  rewrite decide_True in Hb by (apply elem_of_MEAL_TYPES; tauto).
  rewrite decide_True in Hl by (apply elem_of_MEAL_TYPES; tauto).
  rewrite decide_True in Hd by (apply elem_of_MEAL_TYPES; tauto).
  rewrite decide_True in Hs by (apply elem_of_MEAL_TYPES; tauto).
  simplify_eq. done.
Qed.

(** X7. After the button is pressed with a plate from the widgets, the tracker
    shows a summary for that date whose total is the total it showed before
    (0 if it showed the "no meals" notice) plus the plate's calories, and
    whose line for the chosen meal grew by the same amount. *)
Theorem tab_tracker_after_add (log : MealLog) today meal_choice items
    recommended :
  wf_log log → meal_choice ∈ MEAL_TYPES → Forall ui_item items →
  ∃ log' by_meal pre,
    add_to_meal_log today meal_choice items (Some log) =
      (Some log', inr (calorie_sum items)) ∧
    default zero_day (log !! today) !! meal_choice = Some pre ∧
    tab_tracker today recommended (Some log') =
      (Some log',
       inr (MealSummary by_meal
              (sum_values (default zero_day (log !! today))
                 + calorie_sum items)
              (compare_target
                 (sum_values (default zero_day (log !! today))
                    + calorie_sum items) <$> recommended))) ∧
    (meal_choice, pre + calorie_sum items) ∈ by_meal ∧
    (log !! today = None →
       sum_values (default zero_day (log !! today)) = 0 ∧ pre = 0).
Proof.
  intros Hwf Hslot Hitems.
  destruct (wf_log_slot log today meal_choice Hwf Hslot) as [pre Hpre].
  assert (wf_log (bump today meal_choice (calorie_sum items) log)) as Hwf'.
  { apply wf_log_bump; [done..|]. by apply total_plate_ui. }
  assert (stored (bump today meal_choice (calorie_sum items) log)
            today meal_choice = Some (pre + calorie_sum items)) as Hstored.
  { unfold stored. rewrite bump_lookup, Hpre. simpl. apply lookup_insert_eq. }
  destruct (tab_tracker_wf_shows _ today recommended meal_choice _
              Hwf' Hslot Hstored) as (by_meal & total & advice & Hview & Hin).
  exists (bump today meal_choice (calorie_sum items) log), by_meal, pre.
  split.
  { rewrite add_to_meal_log_ui by done. apply addCalories_bump. eauto. }
  split; [done|]. split; [|split; [done|]].
  - rewrite Hview. rewrite tab_tracker_run, bump_lookup, Hpre in Hview.
    simpl in Hview.
    rewrite (sum_values_insert _ _ pre) in Hview by done.
    destruct (meal_lines _) as [e|lines]; simpl in Hview; [done|].
    injection Hview as <- <- <-. do 3 f_equal; [lia|]. do 2 f_equal. lia.
  - intros Hnone. rewrite Hnone in *. simpl in *.
    split; [apply sum_values_zero_day|].
    rewrite zero_day_lookup, decide_True in Hpre by done. congruence.
Qed.

Lemma tab_tracker_after_add_witness :
  ∃ log' (by_meal : list (string * Z)) pre,
    add_to_meal_log "2024-01-01" "Lunch" [("dosa", 2)] (Some ∅) =
      (Some log', inr (calorie_sum [("dosa", 2)])) ∧
    (("Lunch" : string), pre + calorie_sum [("dosa", 2)]) ∈ by_meal.
Proof.
  destruct (tab_tracker_after_add ∅ "2024-01-01" "Lunch" [("dosa", 2)] None)
    as (log' & by_meal & pre & Hrun & _ & _ & Hin & _).
  - apply map_Forall_empty.
  - apply (bool_decide_unpack _). vm_compute. exact I.
  - apply (bool_decide_unpack _). vm_compute. exact I.
  - exists log', by_meal, pre. split; [exact Hrun|exact Hin].
Defined.

Lemma log_plate_other_date (log : MealLog) today slot plate :
  ∃ log',
    (log_plate today slot plate (Some log)).1 = Some log' ∧
    ∀ date, date ≠ today → log' !! date = log !! date.
Proof.
  rewrite log_plate_run. destruct plate as [e|t]; [by exists log|].
  destruct (add_to_slot _ _ _ _) as [e|log'] eqn:Hadd; simpl; [by exists log|].
  exists log'. split; [done|].
  apply add_to_slot_inv in Hadd as (meals & old & _ & _ & ->).
  intros date Hne. by rewrite lookup_insert_ne, init_day_lookup_ne.
Qed.

(** X8. What the tracker shows for a date does not change when the button is
    pressed on another date, whatever the plate and the slot, and whether
    the press succeeds or fails. *)
Theorem tab_tracker_other_date (log : MealLog) today other meal_choice items
    recommended :
  other ≠ today →
  (tab_tracker other recommended
     (add_to_meal_log today meal_choice items (Some log)).1).2 =
  (tab_tracker other recommended (Some log)).2.
Proof.
  intros Hne. unfold add_to_meal_log.
  destruct (log_plate_other_date log today meal_choice (total_plate items))
    as (log' & -> & Hframe).
  by rewrite !tab_tracker_run, Hframe.
Qed.

Lemma tab_tracker_other_date_witness :
  (tab_tracker "2024-01-01" None
     (add_to_meal_log "2024-01-02" "Lunch" [("dosa", 2)] (Some ∅)).1).2 =
  (tab_tracker "2024-01-01" None (Some ∅)).2.
Proof.
  apply (tab_tracker_other_date ∅ "2024-01-02" "2024-01-01").
  discriminate.
Defined.

(** X9. The handler itself does not check counts: with a name of the table and
    a negative count the press succeeds and the slot's total goes down.
    Only the number widget's lower bound keeps totals from decreasing. *)
Theorem add_to_meal_log_negative_count (log : MealLog) today meal_choice
    name count :
  wf_log log → meal_choice ∈ MEAL_TYPES →
  name ∈ NUTRITION_keys → count < 0 →
  ∃ pre log',
    stored (init_day today log) today meal_choice = Some pre ∧
    add_to_meal_log today meal_choice [(name, count)] (Some log) =
      (Some log', inr (kcal name * count)) ∧
    stored log' today meal_choice = Some (pre + kcal name * count) ∧
    pre + kcal name * count < pre.
Proof.
  intros Hwf Hslot Hname Hcount.
  destruct (wf_log_slot log today meal_choice Hwf Hslot) as [pre Hpre].
  destruct (NUTRITION_getitem_key name Hname) as (item & _ & Hk & Hpos).
  exists pre, (bump today meal_choice (kcal name * count) log).
  split; [unfold stored; by rewrite init_day_lookup|]. split; [|split].
  - unfold add_to_meal_log.
    rewrite total_plate_known by (by apply Forall_singleton).
    simpl. replace (kcal name * count + 0) with (kcal name * count) by lia.
    apply addCalories_bump. eauto.
  - unfold stored. rewrite bump_lookup, Hpre. simpl. apply lookup_insert_eq.
  - rewrite <- Hk. nia.
Qed.

Lemma add_to_meal_log_negative_count_witness :
  ∃ pre log',
    add_to_meal_log "2024-01-01" "Lunch" [("dosa", -1)]
      (Some {[ "2024-01-01" := zero_day ]}) =
      (Some log', inr (kcal "dosa" * -1)) ∧
    stored log' "2024-01-01" "Lunch" = Some (pre + kcal "dosa" * -1) ∧
    pre + kcal "dosa" * -1 < pre.
Proof.
  destruct (add_to_meal_log_negative_count {[ "2024-01-01" := zero_day ]}
              "2024-01-01" "Lunch" "dosa" (-1))
    as (pre & log' & _ & Hrun & Hstored & Hless).
  - apply map_Forall_singleton, wf_day_zero.
  - apply (bool_decide_unpack _). vm_compute. exact I.
  - apply (bool_decide_unpack _). vm_compute. exact I.
  - lia.
  - exists pre, log'. split; [exact Hrun|]. split; [exact Hstored|exact Hless].
Defined.

(** ** Comparison with the target *)

(** X10. The three messages partition the totals into the bands below, within
    and above 150 kcal around the target, and eating more never moves the
    message back towards "under". *)
Theorem compare_target_bands total_today target :
  (compare_target total_today target = UnderTarget ↔
     total_today < target - 150) ∧
  (compare_target total_today target = WithinTarget ↔
     target - 150 ≤ total_today ≤ target + 150) ∧
  (compare_target total_today target = AboveTarget ↔
     target + 150 < total_today) ∧
  (∀ more, total_today ≤ more →
     (advice_rank (compare_target total_today target)
        ≤ advice_rank (compare_target more target))%nat).
Proof.
  unfold compare_target. repeat split.
  - repeat case_bool_decide; (done || lia).
  - repeat case_bool_decide; (done || lia).
  - repeat case_bool_decide; (done || lia).
  - repeat case_bool_decide; (done || lia).
  - repeat case_bool_decide; (done || lia).
  - repeat case_bool_decide; (done || lia).
  - repeat case_bool_decide; (done || lia).
  - intros more Hmore. repeat case_bool_decide; simpl; lia.
Qed.

Lemma compare_target_bands_witness :
  (advice_rank (compare_target 1850 2000)
     ≤ advice_rank (compare_target 2151 2000))%nat.
Proof.
  apply (proj2 (proj2 (proj2 (compare_target_bands 1850 2000)))). lia.
Defined.

(** ** The tracker on any entry *)

(** X11. For a date that has an entry, whatever it holds: the tab shows the
    summary exactly when the entry has the four meal keys, the total then
    being the sum of all the entry's values; otherwise it ends in the
    [KeyError] of the first missing meal in the order of [MEAL_TYPES]. It
    leaves the file as it is in both cases. *)
Theorem tab_tracker_entry (log : MealLog) today meals recommended :
  log !! today = Some meals →
  (tab_tracker today recommended (Some log)).1 = Some log ∧
  match (tab_tracker today recommended (Some log)).2 with
  | inr view =>
      ∃ b l d s,
        meals !! "Breakfast" = Some b ∧ meals !! "Lunch" = Some l ∧
        meals !! "Dinner" = Some d ∧ meals !! "Snacks" = Some s ∧
        view =
          MealSummary
            [("Breakfast", b); ("Lunch", l); ("Dinner", d); ("Snacks", s)]
            (sum_values meals)
            (compare_target (sum_values meals) <$> recommended)
  | inl e =>
      ∃ before m after,
        MEAL_TYPES = before ++ m :: after ∧
        Forall (λ m', is_Some (meals !! m')) before ∧
        meals !! m = None ∧ e = KeyError m
  end.
Proof.
  intros Hday. rewrite tab_tracker_run, Hday. split; [done|].
  unfold meal_lines, getitem. simpl.
  destruct (meals !! "Breakfast") as [b|] eqn:Hb; simpl.
  2:{ exists [], "Breakfast", ["Lunch"; "Dinner"; "Snacks"]. by repeat split. }
  destruct (meals !! "Lunch") as [l|] eqn:Hl; simpl.
  2:{ exists ["Breakfast"], "Lunch", ["Dinner"; "Snacks"].
      repeat split; [|done]. repeat constructor; eauto. }
  destruct (meals !! "Dinner") as [d|] eqn:Hd; simpl.
  2:{ exists ["Breakfast"; "Lunch"], "Dinner", ["Snacks"].
      repeat split; [|done]. repeat constructor; eauto. }
  destruct (meals !! "Snacks") as [s|] eqn:Hs; simpl.
  2:{ exists ["Breakfast"; "Lunch"; "Dinner"], "Snacks", [].
      repeat split; [|done]. repeat constructor; eauto. }
  by exists b, l, d, s.
Qed.

Lemma tab_tracker_entry_witness :
  (tab_tracker "2024-01-01" None
     (Some {[ "2024-01-01" := {[ "Breakfast" := 105 ]} ]})).1 =
  Some {[ "2024-01-01" := {[ "Breakfast" := 105 ]} ]}.
Proof.
  apply (tab_tracker_entry {[ "2024-01-01" := {[ "Breakfast" := 105 ]} ]}
           "2024-01-01" {[ "Breakfast" := 105 ]} None).
  apply lookup_singleton_eq.
Defined.

(** ** A missing log file *)

(** X12. If the log file is missing when the handler or the tracker runs, each
    ends in [FileNotFoundError] before anything else is looked at, and
    neither creates the file; only the start-up code does. After it, the
    two never end in that error. *)
Theorem missing_log_file today meal_choice items recommended :
  add_to_meal_log today meal_choice items None =
    (None, inl (FileNotFoundError LOG_FILE)) ∧
  tab_tracker today recommended None =
    (None, inl (FileNotFoundError LOG_FILE)) ∧
  (∀ disk path,
     (add_to_meal_log today meal_choice items (startup disk)).2
       ≠ inl (FileNotFoundError path) ∧
     (tab_tracker today recommended (startup disk)).2
       ≠ inl (FileNotFoundError path) ∧
     startup (startup disk) = startup disk).
Proof.
  split; [|split; [done|]].
  - unfold add_to_meal_log. by rewrite log_plate_run.
  - intros disk path.
    assert (∃ log, startup disk = Some log) as [log ->]
      by (destruct disk; simpl; eauto).
    split; [|split; [|done]].
    + unfold add_to_meal_log. rewrite log_plate_run.
      destruct (total_plate items) as [e|t] eqn:Htotal; simpl.
      * intros [= ->]. unfold total_plate in Htotal.
        assert (∀ acc l, plate_sum acc l ≠ inl (FileNotFoundError path))
          as Hno; [|by eapply Hno].
        intros acc l. revert acc.
        induction l as [|[n c] l IH]; intros acc; simpl; [done|].
        unfold NUTRITION_getitem.
        destruct (assoc_getitem n NUTRITION); simpl; [apply IH|done].
      * unfold add_to_slot, getitem.
        destruct (init_day today log !! today) as [meals|]; simpl; [|done].
        destruct (meals !! meal_choice); simpl; done.
    + rewrite tab_tracker_run. destruct (log !! today) as [meals|]; [|done].
      unfold meal_lines, getitem, raise. simpl.
      destruct (meals !! "Breakfast"); simpl; [|done].
      destruct (meals !! "Lunch"); simpl; [|done].
      destruct (meals !! "Dinner"); simpl; [|done].
      destruct (meals !! "Snacks"); simpl; done.
Qed.

(** ** The detection loop on any detector answer *)

Section loop_outcome.
Context {Session : Type}.
Variable str_lower : string → string.
Variable selectbox : string → list string → nat → string → Session → string.
Variable number_input : string → Z → Z → Z → string → Session → Z.
Variable results : Results.

Local Arguments list_index : simpl never.

Lemma detection_loop_outcome σ todo : ∀ i acc,
  match detection_loop str_lower selectbox number_input results σ i todo acc
  with
  | inr items =>
      length items = (length acc + length todo)%nat ∧
      Forall (λ cls, is_Some (names results !! cls)) todo
  | inl e =>
      ∃ before cls after,
        todo = before ++ cls :: after ∧
        Forall (λ c, is_Some (names results !! c)) before ∧
        names results !! cls = None ∧ e = KeyError (pretty cls)
  end.
Proof.
  induction todo as [|cls todo IH]; intros i acc; simpl.
  - split; [lia|done].
  - destruct (names results !! cls) as [class_name|] eqn:Hname.
    + destruct (detected_name str_lower results cls) as [e|detected] eqn:Hdet.
      { unfold detected_name in Hdet. by rewrite Hname in Hdet. }
      simpl.
      destruct (list_index_elem detected NUTRITION_keys
                  (detected_name_key _ _ _ _ Hdet)) as [index ->].
      simpl.
      match goal with
      | |- context [detection_loop _ _ _ _ _ ?j _ ?a] =>
          specialize (IH j a);
          destruct (detection_loop str_lower selectbox number_input
                      results σ j todo a) as [e|items]
      end.
      * destruct IH as (before & c & after & -> & Hbefore & Hnone & ->).
        exists (cls :: before), c, after. repeat split; [|done].
        constructor; eauto.
      * destruct IH as [Hlen Hnamed]. rewrite length_app in Hlen.
        simpl in Hlen. split; [lia|]. constructor; eauto.
    + unfold detected_name. rewrite Hname. simpl.
      exists [], cls, todo. by repeat split.
Qed.

(** X13. The loop fails only on a box whose class index the detector's own
    name table lacks, with the [KeyError] of the first such box; otherwise
    it hands over one item per box, whatever the widgets return. The lookup
    of the label among the selection's options never fails. *)
Theorem detect_items_outcome σ :
  match detect_items str_lower selectbox number_input results σ with
  | inr items =>
      length items = length (boxes results) ∧
      Forall (λ cls, is_Some (names results !! cls)) (boxes results)
  | inl e =>
      ∃ before cls after,
        boxes results = before ++ cls :: after ∧
        Forall (λ c, is_Some (names results !! c)) before ∧
        names results !! cls = None ∧ e = KeyError (pretty cls)
  end.
Proof. apply (detection_loop_outcome σ (boxes results) 0%nat []). Qed.

Lemma detection_loop_untouched (untouched : Session) todo : ∀ i acc,
  (∀ label options index key x,
     options !! index = Some x →
     selectbox label options index key untouched = x) →
  (∀ label lo hi value key,
     number_input label lo hi value key untouched = value) →
  detection_loop str_lower selectbox number_input results untouched i todo acc
  = (λ items, acc ++ items) <$>
      mapM (M := result)
        (λ cls, (λ name, (name, 1)) <$> detected_name str_lower results cls)
        todo.
Proof.
  intros i acc Hselect Hnumber. revert i acc.
  induction todo as [|cls todo IH]; intros i acc; simpl.
  - unfold fmap, result_fmap. by rewrite app_nil_r.
  - destruct (detected_name str_lower results cls) as [e|detected] eqn:Hdet;
      simpl; [done|].
    destruct (list_index_elem detected NUTRITION_keys
                (detected_name_key _ _ _ _ Hdet)) as [index Hindex].
    rewrite Hindex. simpl.
    rewrite (Hselect _ _ _ _ detected) by by apply list_index_lookup.
    rewrite Hnumber, IH.
    destruct (mapM _ todo) as [e|items]; simpl; [done|].
    unfold fmap, result_fmap. by rewrite <- app_assoc.
Qed.

End loop_outcome.

Lemma edits_selectbox_default label (options : list string) index key x :
  options !! index = Some x →
  edits_selectbox label options index key no_edits = x.
Proof. intros Hx. unfold edits_selectbox. simpl. by rewrite Hx. Qed.

(** X14. When the user edits nothing, and a selection then shows the option at
    its initial index and a number widget its initial value, the items are
    the detected labels, each with count 1, in the order of the boxes. *)
Theorem detect_items_untouched {Session : Type}
    (str_lower : string → string)
    (selectbox : string → list string → nat → string → Session → string)
    (number_input : string → Z → Z → Z → string → Session → Z)
    (untouched : Session) results :
  (∀ label options index key x,
     options !! index = Some x →
     selectbox label options index key untouched = x) →
  (∀ label lo hi value key,
     number_input label lo hi value key untouched = value) →
  detect_items str_lower selectbox number_input results untouched =
    mapM (M := result)
      (λ cls, (λ name, (name, 1)) <$> detected_name str_lower results cls)
      (boxes results).
Proof.
  intros Hselect Hnumber. unfold detect_items.
  rewrite (detection_loop_untouched _ _ _ _ untouched) by done.
  by destruct (mapM _ _).
Qed.

Lemma detect_items_untouched_witness :
  detect_items ascii_lower edits_selectbox edits_number_input
    {| boxes := [46; 52]; names := {[ 46 := "Banana"; 52 := "Hotdog" ]} |}
    no_edits
  = inr [("banana", 1); ("apple", 1)].
Proof.
  rewrite (detect_items_untouched ascii_lower edits_selectbox
             edits_number_input no_edits).
  - vm_compute. reflexivity.
  - apply edits_selectbox_default.
  - apply edits_number_input_default.
Defined.
